(** * JRA_Batch: a shallow embedding of JointReactionsAnalysis/JRA_Batch.py

    The Python module drives a batch of joint-reaction analyses.  This file
    embeds its four functions ([create_jra_setup], [get_subject_info],
    [prep_joint_reactions_analysis], [run_joint_reactions_analysis]) and its
    [__main__] block, together with the parts of Python's [str] and
    [posixpath] they rely on, and the file system they act on.  The external collaborators (OpenSim's
    [Storage], [Model] and [AnalyzeTool]; osim_emg's [combine_files] and
    [save_combined_activations]; [os.walk]'s directory enumeration) are
    parameters of the development. *)

From Stdlib Require Import Ascii String List Permutation QArith.
From stdpp Require Import base gmap strings list.
Import ListNotations.

Notation "a +:+ b" := (String.append a b) (at level 60, right associativity).

(* ------------------------------------------------------------------ *)
(** ** Python string operations *)

Module PyStr.

(** [s.startswith(p)] *)
Definition startswith (s p : string) : bool := String.prefix p s.

(** [sub in s] for a non-empty [sub] (every needle of the module is a
    non-empty literal or a non-empty file name). *)
Fixpoint contains (sub s : string) : bool :=
  match s with
  | EmptyString => String.prefix sub s
  | String c s' => String.prefix sub s || contains sub s'
  end.

(** [s.replace(old, new)] for a non-empty [old]: a left-to-right scan that
    replaces non-overlapping occurrences.  [skip] counts the characters of
    the last match still to be consumed. *)
Fixpoint replace_go (old new : string) (skip : nat) (s : string) : string :=
  match s with
  | EmptyString => EmptyString
  | String c s' =>
      match skip with
      | S k => replace_go old new k s'
      | O => if String.prefix old s
             then new +:+ replace_go old new (String.length old - 1) s'
             else String c (replace_go old new 0 s')
      end
  end.

Definition replace (s old new : string) : string := replace_go old new 0 s.

(** [s.split(sep)] for a non-empty [sep]. *)
Fixpoint split_go (sep : string) (skip : nat) (s : string) : list string :=
  match s with
  | EmptyString => [EmptyString]
  | String c s' =>
      match skip with
      | S k => split_go sep k s'
      | O => if String.prefix sep s
             then EmptyString :: split_go sep (String.length sep - 1) s'
             else match split_go sep 0 s' with
                  | [] => [String c EmptyString]
                  | x :: xs => String c x :: xs
                  end
      end
  end.

Definition split (s sep : string) : list string := split_go sep 0 s.

(** [l[0]] and [l[-1]]; [str.split] never returns an empty list. *)
Definition first (l : list string) : string := hd EmptyString l.
Definition last (l : list string) : string := List.last l EmptyString.

(** ['/'.join(l)] *)
Fixpoint join (sep : string) (l : list string) : string :=
  match l with
  | [] => EmptyString
  | [x] => x
  | x :: xs => x +:+ sep +:+ join sep xs
  end.

(** [str.splitlines] on the UTF-8 encoding of the text.  The line
    boundaries are \n, \x0b, \x0c, \r, \x1c, \x1d, \x1e, U+0085 (bytes C2 85),
    U+2028 (E2 80 A8) and U+2029 (E2 80 A9), and \r\n is one boundary.  In
    valid UTF-8 the bytes C2 and E2 only start a character, so these byte
    patterns match exactly the boundary characters of the decoded text.
    [break_len s] is the length in bytes of the boundary [s] starts with. *)
Definition CR : ascii := ascii_of_nat 13.
Definition LF : ascii := ascii_of_nat 10.

Definition break_len (s : string) : option nat :=
  match s with
  | EmptyString => None
  | String c r =>
      if Ascii.eqb c CR then
        match r with
        | String d _ => if Ascii.eqb d LF then Some 2 else Some 1
        | EmptyString => Some 1
        end
      else if existsb (Ascii.eqb c) (map ascii_of_nat [10; 11; 12; 28; 29; 30]) then Some 1
      else if Ascii.eqb c (ascii_of_nat 194) then
        match r with
        | String d _ => if Ascii.eqb d (ascii_of_nat 133) then Some 2 else None
        | EmptyString => None
        end
      else if Ascii.eqb c (ascii_of_nat 226) then
        match r with
        | String d (String e _) =>
            if Ascii.eqb d (ascii_of_nat 128)
               && (Ascii.eqb e (ascii_of_nat 168) || Ascii.eqb e (ascii_of_nat 169))
            then Some 3 else None
        | _ => None
        end
      else None
  end.

(** [skip] counts the bytes of the last boundary still to be consumed; no
    trailing empty line is produced. *)
Fixpoint splitlines_go (skip : nat) (s : string) : list string :=
  match s with
  | EmptyString => []
  | String c s' =>
      match skip with
      | S k => splitlines_go k s'
      | O => match break_len s with
             | Some n => EmptyString :: splitlines_go (n - 1) s'
             | None => match splitlines_go 0 s' with
                       | [] => [String c EmptyString]
                       | x :: xs => String c x :: xs
                       end
             end
      end
  end.

Definition splitlines (s : string) : list string := splitlines_go 0 s.

(** A line of text: no line boundary starts at any of its bytes. *)
Fixpoint no_line_break (s : string) : bool :=
  match s with
  | EmptyString => true
  | String _ s' =>
      match break_len s with Some _ => false | None => no_line_break s' end
  end.

End PyStr.

(* ------------------------------------------------------------------ *)
(** ** posixpath *)

Module PosixPath.
Import PyStr.

Definition isabs (p : string) : bool := startswith p "/".

(** [os.path.join(a, b)] *)
Definition join (a b : string) : string :=
  if startswith b "/" then b
  else if String.eqb a EmptyString then b
  else if String.eqb (PyStr.last (PyStr.split a "/")) EmptyString then a +:+ b
  else a +:+ "/" +:+ b.

(** The component loop of [normpath]; [acc] is [new_comps] reversed. *)
Fixpoint norm_comps (initial_slashes : bool) (acc : list string)
    (comps : list string) : list string :=
  match comps with
  | [] => acc
  | comp :: rest =>
      if String.eqb comp EmptyString || String.eqb comp "." then
        norm_comps initial_slashes acc rest
      else if negb (String.eqb comp "..")
              || (negb initial_slashes && bool_decide (acc = []))
              || (match acc with x :: _ => String.eqb x ".." | [] => false end)
      then norm_comps initial_slashes (comp :: acc) rest
      else match acc with
           | [] => norm_comps initial_slashes acc rest
           | _ :: acc' => norm_comps initial_slashes acc' rest
           end
  end.

(** [os.path.normpath(path)] *)
Definition normpath (path : string) : string :=
  if String.eqb path EmptyString then "." else
  let nslash :=
    if startswith path "/" then
      if startswith path "//" && negb (startswith path "///") then 2 else 1
    else 0 in
  let comps := List.rev (norm_comps (bool_decide (nslash <> 0)) []
                                    (PyStr.split path "/")) in
  let p := PyStr.join "/" comps in
  let p := match nslash with
           | 0 => p | 1 => "/" +:+ p | _ => "//" +:+ p end in
  if String.eqb p EmptyString then "." else p.

(** [os.path.abspath(path)] in a process whose working directory is
    [cwd]. *)
Definition abspath (cwd path : string) : string :=
  if isabs path then normpath path else normpath (join cwd path).

(** [os.path.split(p)]: [head] is everything up to the last ['/'], with its
    trailing slashes removed unless it consists of slashes only. *)
Fixpoint rstrip_slash_rev (r : list ascii) : list ascii :=
  match r with
  | c :: r' => if Ascii.eqb c "/" then rstrip_slash_rev r' else r
  | [] => []
  end.

Definition path_split (p : string) : string * string :=
  let tail := PyStr.last (PyStr.split p "/") in
  let lhead := String.length p - String.length tail in
  let head := String.substring 0 lhead p in
  let head' :=
    if String.eqb head EmptyString then head
    else if forallb (fun c => Ascii.eqb c "/") (list_ascii_of_string head)
    then head
    else string_of_list_ascii
           (List.rev (rstrip_slash_rev (List.rev (list_ascii_of_string head)))) in
  (head', tail).

End PosixPath.

(* ------------------------------------------------------------------ *)
(** ** Python exceptions *)

Inductive exc : Type :=
| UnboundLocalError (var : string)
| FileNotFoundError (path : string)
| FileExistsError (path : string)
| NotADirectoryError (path : string)
| IsADirectoryError (path : string)
| UnicodeDecodeError (path : string)
| UnicodeEncodeError (path : string)
| ExternalError (what : string).

(* ------------------------------------------------------------------ *)
(** ** get_subject_info (lines 101-118) *)

(** [x in l] on a list of strings *)
Definition py_in (x : string) (l : list string) : bool :=
  existsb (String.eqb x) l.

Definition get_subject_info (cwd root subject_id : string)
    (tear_subjects no_tear_subjects : list string)
    : exc + (string * string * string * bool) :=
  let branch :=
    if py_in subject_id tear_subjects then
      let model_file := root +:+ "/" +:+ subject_id +:+ "/" +:+ subject_id +:+ "_nosupra.osim" in
      let so_dir := PyStr.replace model_file (subject_id +:+ "_nosupra.osim") "SO_Results" in
      let results_dir := PyStr.replace model_file (subject_id +:+ "_nosupra.osim") "JRA_Results" in
      Some (model_file, so_dir, results_dir, true)
    else if py_in subject_id no_tear_subjects then
      let model_file := root +:+ "/" +:+ subject_id +:+ "/" +:+ subject_id +:+ "_clamped.osim" in
      let so_dir := PyStr.replace model_file (subject_id +:+ "_clamped.osim") "SO_Results" in
      let results_dir := PyStr.replace model_file (subject_id +:+ "_clamped.osim") "JRA_Results" in
      Some (model_file, so_dir, results_dir, false)
    else None in
  match branch with
  (* line 114 reads [model_file], which neither branch assigned *)
  | None => inl (UnboundLocalError "model_file")
  | Some (model_file, so_dir, results_dir, cohort) =>
      inr (PosixPath.abspath cwd model_file, PosixPath.abspath cwd so_dir,
           PosixPath.abspath cwd results_dir, cohort)
  end.

(* ------------------------------------------------------------------ *)
(** ** File system, IO trace and the module's monad *)

Inductive node : Type :=
| Dir
| File (content : string).

Abbreviation FS := (gmap string node).

(** The root directory always exists. *)
Definition fs_lookup (fs : FS) (p : string) : option node :=
  if String.eqb p "/" then Some Dir else fs !! p.

Definition fs_exists (fs : FS) (p : string) : bool :=
  match fs_lookup fs p with Some _ => true | None => false end.

(** The calls the module makes into the outside world, in order. *)
Inductive io_event : Type :=
| EvRead (path : string)
| EvWrite (path : string)
| EvExists (path : string)
| EvMakedirs (path : string)
| EvWalk (top : string)
| EvCombineFiles (states_file : string)
| EvSaveCombinedActivations (activation_file split_emg not_split_emg : string)
    (cohort : option bool)
| EvStorage (states_file : string)
| EvEngine (model_file setup_file : string).

Record state : Type := mkState { st_fs : FS; st_io : list io_event }.

(** A statement either returns or raises; effects made before a raise
    persist. *)
Definition M (A : Type) : Type := state -> (exc + A) * state.

Definition ret {A} (a : A) : M A := fun s => (inr a, s).
Definition raise {A} (e : exc) : M A := fun s => (inl e, s).
Definition bind {A B} (m : M A) (k : A -> M B) : M B :=
  fun s => match m s with
           | (inl e, s') => (inl e, s')
           | (inr a, s') => k a s'
           end.

Notation "x <- m ;; k" := (bind m (fun x => k))
  (at level 100, m at next level, right associativity).
Notation "m ;;; k" := (bind m (fun _ => k)) (at level 100, right associativity).

Definition emit (ev : io_event) : M unit :=
  fun s => (inr tt, mkState (st_fs s) (st_io s ++ [ev])).

Definition get_fs : M FS := fun s => (inr (st_fs s), s).
Definition put_fs (fs : FS) : M unit := fun s => (inr tt, mkState fs (st_io s)).

Definition lift {A} (r : exc + A) : M A :=
  match r with inl e => raise e | inr a => ret a end.

(** A [for] statement: the body runs on each element in turn, and a raise
    leaves the loop. *)
Fixpoint py_for {A} (l : list A) (body : A -> M unit) : M unit :=
  match l with
  | [] => ret tt
  | x :: xs => body x ;;; py_for xs body
  end.

(* ------------------------------------------------------------------ *)
(** ** os and builtin file primitives *)

(** Files are opened in text mode with the preferred encoding taken to be
    UTF-8.  A file's content and the module's strings are byte strings; a
    string that is not valid UTF-8 stands for a [str] that cannot be encoded
    (a path decoded with surrogate escapes).  [utf8_valid] is the strict
    decoder's acceptance test: no overlong forms, no surrogates, nothing above
    U+10FFFF. *)
Module TextIO.

Definition is_cont (c : ascii) : bool :=
  let m := nat_of_ascii c in (128 <=? m) && (m <=? 191).

Fixpoint utf8_valid (s : string) : bool :=
  match s with
  | EmptyString => true
  | String c r =>
      let n := nat_of_ascii c in
      if n <? 128 then utf8_valid r
      else if (194 <=? n) && (n <=? 223) then
        match r with
        | String c1 r1 => is_cont c1 && utf8_valid r1
        | EmptyString => false
        end
      else if (224 <=? n) && (n <=? 239) then
        match r with
        | String c1 (String c2 r2) =>
            let m := nat_of_ascii c1 in
            (if n =? 224 then (160 <=? m) && (m <=? 191)
             else if n =? 237 then (128 <=? m) && (m <=? 159)
             else is_cont c1)
            && is_cont c2 && utf8_valid r2
        | _ => false
        end
      else if (240 <=? n) && (n <=? 244) then
        match r with
        | String c1 (String c2 (String c3 r3)) =>
            let m := nat_of_ascii c1 in
            (if n =? 240 then (144 <=? m) && (m <=? 191)
             else if n =? 244 then (128 <=? m) && (m <=? 143)
             else is_cont c1)
            && is_cont c2 && is_cont c3 && utf8_valid r3
        | _ => false
        end
      else false
  end.

(** Universal newlines on reading: \r\n and a lone \r become \n. *)
Fixpoint translate_newlines (s : string) : string :=
  match s with
  | EmptyString => EmptyString
  | String c r =>
      if Ascii.eqb c PyStr.CR then
        String PyStr.LF
          (match r with
           | String d r' =>
               if Ascii.eqb d PyStr.LF then translate_newlines r' else translate_newlines r
           | EmptyString => EmptyString
           end)
      else String c (translate_newlines r)
  end.

End TextIO.

(** The proper ancestors of [p], outermost first, as [os.path.split]
    yields them. *)
Fixpoint ancestors_go (fuel : nat) (p : string) : list string :=
  match fuel with
  | O => []
  | S k =>
      let head := fst (PosixPath.path_split p) in
      if String.eqb head EmptyString || String.eqb head p then []
      else ancestors_go k head ++ [head]
  end.

Definition ancestors (p : string) : list string := ancestors_go (String.length p) p.

(** The error path resolution of a missing [p] raises: the first ancestor
    that is not a directory makes it [NotADirectoryError] if it is a file and
    [FileNotFoundError] if it is missing; [None] when every ancestor is a
    directory. *)
Definition path_resolve_error (fs : FS) (p : string) : option exc :=
  match List.find (fun a => match fs_lookup fs a with Some Dir => false | _ => true end)
                  (ancestors p) with
  | Some a => match fs_lookup fs a with
              | Some (File _) => Some (NotADirectoryError p)
              | _ => Some (FileNotFoundError p)
              end
  | None => None
  end.

Definition missing_path_error (fs : FS) (p : string) : exc :=
  match path_resolve_error fs p with Some e => e | None => FileNotFoundError p end.

(** [open(p, "r").read()] *)
Definition read_file (p : string) : M string :=
  emit (EvRead p) ;;;
  fs <- get_fs ;;
  match fs_lookup fs p with
  | Some (File c) =>
      if TextIO.utf8_valid c then ret (TextIO.translate_newlines c)
      else raise (UnicodeDecodeError p)
  | Some Dir => raise (IsADirectoryError p)
  | None => raise (missing_path_error fs p)
  end.

(** [with open(p, "w") as f: f.write(c)]: [open] creates or truncates [p];
    a [c] that cannot be encoded raises in [write], leaving [p] empty. *)
Definition write_file (p c : string) : M unit :=
  emit (EvWrite p) ;;;
  fs <- get_fs ;;
  let create :=
    if TextIO.utf8_valid c then put_fs (<[p := File c]> fs)
    else put_fs (<[p := File EmptyString]> fs) ;;; raise (UnicodeEncodeError p) in
  match fs_lookup fs p with
  | Some Dir => raise (IsADirectoryError p)
  | _ =>
      let parent := fst (PosixPath.path_split p) in
      if String.eqb parent EmptyString then create
      else match fs_lookup fs parent with
           | Some Dir => create
           | Some (File _) => raise (NotADirectoryError p)
           | None => raise (missing_path_error fs p)
           end
  end.

(** [os.path.exists(p)] *)
Definition path_exists (p : string) : M bool :=
  emit (EvExists p) ;;;
  fs <- get_fs ;;
  ret (fs_exists fs p).

(** [os.mkdir(p)] *)
Definition mkdir (p : string) : M unit :=
  fs <- get_fs ;;
  if fs_exists fs p then raise (FileExistsError p) else
  let parent := fst (PosixPath.path_split p) in
  if String.eqb parent EmptyString then put_fs (<[p := Dir]> fs)
  else match fs_lookup fs parent with
       | Some Dir => put_fs (<[p := Dir]> fs)
       | Some (File _) => raise (NotADirectoryError p)
       | None => raise (FileNotFoundError p)
       end.

(** [try: m except FileExistsError: pass] *)
Definition except_file_exists (m : M unit) : M unit :=
  fun s => match m s with
           | (inl (FileExistsError _), s') => (inr tt, s')
           | r => r
           end.

(** [os.makedirs(name)]: [head] is strictly shorter than [name] at each
    recursive call, so [String.length name + 1] calls suffice. *)
Fixpoint makedirs_go (fuel : nat) (name : string) : M unit :=
  match fuel with
  | O => raise (ExternalError "RecursionError")
  | S k =>
      let '(head, tail) := PosixPath.path_split name in
      let '(head, tail) :=
        if String.eqb tail EmptyString then PosixPath.path_split head
        else (head, tail) in
      (if negb (String.eqb head EmptyString) && negb (String.eqb tail EmptyString)
       then fs <- get_fs ;;
            if fs_exists fs head then ret tt
            else except_file_exists (makedirs_go k head)
       else ret tt) ;;;
      mkdir name
  end.

Definition makedirs (name : string) : M unit :=
  emit (EvMakedirs name) ;;; makedirs_go (S (String.length name)) name.

(* ------------------------------------------------------------------ *)
(** ** External collaborators *)

(** [time] is the type of the float time stamps of a states file. *)
Record externals (time : Type) : Type := {
  (** osim_emg.activations_to_states.combine_files *)
  x_combine_files : FS -> string -> (exc + string) * FS;
  (** osim_emg.merge_measured_with_predicted.save_combined_activations *)
  x_save_combined_activations :
    FS -> string -> string -> string -> option bool -> (exc + string) * FS;
  (** opensim.Storage(p): the time column of the file, or a load error *)
  x_storage : FS -> string -> exc + list time;
  (** what Storage.getFirstTime/getLastTime return on an empty storage *)
  x_empty_time : time;
  (** Python's str() on a float *)
  x_str_time : time -> string;
  (** os.walk(top): (dirpath, dirnames, filenames) triples *)
  x_walk : FS -> string -> list (string * list string * list string);
  (** opensim.Model(model).initSystem(); AnalyzeTool(setup, True).run() *)
  x_engine : FS -> string -> string -> (exc + unit) * FS;
}.

Arguments x_combine_files {time}.
Arguments x_save_combined_activations {time}.
Arguments x_storage {time}.
Arguments x_empty_time {time}.
Arguments x_str_time {time}.
Arguments x_walk {time}.
Arguments x_engine {time}.

Section JRA.

Context {time : Type} (X : externals time).

(** The working directory of the process, used by [os.path.abspath]. *)
Variable cwd : string.

Definition call_external {A} (ev : io_event) (f : FS -> (exc + A) * FS) : M A :=
  emit ev ;;;
  fs <- get_fs ;;
  let '(r, fs') := f fs in
  put_fs fs' ;;; lift r.

Definition combine_files (states_file : string) : M string :=
  call_external (EvCombineFiles states_file)
    (fun fs => x_combine_files X fs states_file).

Definition save_combined_activations (activation_file split_emg not_split_emg : string)
    (cohort : option bool) : M string :=
  call_external (EvSaveCombinedActivations activation_file split_emg not_split_emg cohort)
    (fun fs => x_save_combined_activations X fs activation_file split_emg not_split_emg cohort).

Definition osim_Storage (states_file : string) : M (list time) :=
  call_external (EvStorage states_file)
    (fun fs => (x_storage X fs states_file, fs)).

(** Storage.getFirstTime / Storage.getLastTime *)
Definition getFirstTime (rows : list time) : time :=
  match rows with [] => x_empty_time X | t :: _ => t end.

Definition getLastTime (rows : list time) : time :=
  List.last rows (x_empty_time X).

Definition os_walk (top : string) : M (list (string * list string * list string)) :=
  call_external (EvWalk top) (fun fs => (inr (x_walk X fs top), fs)).

(** lines 171-174 *)
Definition run_engine (model_file setup_file : string) : M unit :=
  call_external (EvEngine model_file setup_file)
    (fun fs => x_engine X fs model_file setup_file).

(* ------------------------------------------------------------------ *)
(** ** create_jra_setup (lines 63-98) *)

(** lines 83-89 *)
Definition fill_template (content model_file combined_states combined_activations
    initial_time final_time results_dir trial_name : string) : string :=
  let content := PyStr.replace content "MODEL_FILE" model_file in
  let content := PyStr.replace content "COMBINED_STATES_FILE" combined_states in
  let content := PyStr.replace content "COMBINED_ACTIVATION_FILE" combined_activations in
  let content := PyStr.replace content "INITIAL_TIME" initial_time in
  let content := PyStr.replace content "FINAL_TIME" final_time in
  let content := PyStr.replace content "RESULTS_DIRECTORY" results_dir in
  PyStr.replace content "TRIAL_NAME" trial_name.

Definition activation_file_of (states_file : string) : string :=
  PyStr.replace states_file "StatesReporter_states" "StaticOptimization_activation".

Definition create_jra_setup (setup_template model_file states_file split_emg_filepath
    not_split_emg_filepath : string) (initial_time final_time : time)
    (results_dir trial_name : string) (cohort : option bool) : M string :=
  content <- read_file setup_template ;;
  combined_states <- combine_files states_file ;;
  let activation_file := activation_file_of states_file in
  combined_activations <- save_combined_activations activation_file
                            split_emg_filepath not_split_emg_filepath cohort ;;
  let content := fill_template content model_file combined_states combined_activations
                   (x_str_time X initial_time) (x_str_time X final_time)
                   results_dir trial_name in
  let setup_file := trial_name +:+ "_Setup.xml" in
  let setup_path := PosixPath.join results_dir setup_file in
  write_file setup_path content ;;;
  ret setup_path.

(* ------------------------------------------------------------------ *)
(** ** prep_joint_reactions_analysis (lines 121-140) *)

Definition prep_joint_reactions_analysis (setup_template model_file states_file
    results_dir split_emg_filepath not_split_emg_filepath trial_name : string)
    (cohort : option bool) : M string :=
  states_data <- osim_Storage states_file ;;
  let initial_time := getFirstTime states_data in
  let final_time := getLastTime states_data in
  create_jra_setup setup_template model_file states_file split_emg_filepath
    not_split_emg_filepath initial_time final_time results_dir trial_name cohort.

(* ------------------------------------------------------------------ *)
(** ** run_joint_reactions_analysis (lines 143-179) *)

(** lines 154-156 *)
Definition ensure_results_dir (results_dir : string) : M unit :=
  e <- path_exists results_dir ;;
  if negb e then makedirs results_dir else ret tt.

(** lines 162-163 *)
Definition trial_of (states_file : string) : string :=
  let sub_string := PyStr.split states_file "/" in
  PyStr.first (PyStr.split (PyStr.last sub_string) "_SO").

(** lines 160-176, for one file name of the listing *)
Definition process_name (setup_template model_file so_dir results_dir
    split_emg_filepath not_split_emg_filepath : string) (cohort : bool)
    (name : string) : M unit :=
  if PyStr.contains "_states.sto" name then
    let states_file := so_dir +:+ "/" +:+ name in
    let trial := trial_of states_file in
    let tool_name := trial +:+ "_JRA" in
    setup_file <- prep_joint_reactions_analysis setup_template model_file states_file
                    results_dir split_emg_filepath not_split_emg_filepath tool_name
                    (Some cohort) ;;
    run_engine model_file setup_file
  else ret tt.

(** lines 149-178, for one subject.  The listing of [os.walk] is taken
    when the loop starts. *)
Definition process_subject (tear_subjects no_tear_subjects : list string)
    (split_emg_filepath not_split_emg_filepath root_dir setup_template : string)
    (subject_id : string) : M unit :=
  info <- lift (get_subject_info cwd root_dir subject_id tear_subjects no_tear_subjects) ;;
  let '(model_file, so_dir, results_dir, cohort) := info in
  ensure_results_dir results_dir ;;;
  walk <- os_walk so_dir ;;
  py_for walk (fun '(_, _, filenames) =>
    py_for filenames
      (process_name setup_template model_file so_dir results_dir
         split_emg_filepath not_split_emg_filepath cohort)).

Definition run_joint_reactions_analysis (tear_subjects no_tear_subjects : list string)
    (split_emg_filepath not_split_emg_filepath root_dir setup_template : string)
    : M unit :=
  let subject_list := tear_subjects ++ no_tear_subjects in
  py_for subject_list
    (process_subject tear_subjects no_tear_subjects split_emg_filepath
       not_split_emg_filepath root_dir setup_template).

(** Trial discovery (lines 158-163) as a list: the (trial, states file)
    pairs the loop of [process_subject] visits, in order. *)
Definition discover_trials (so_dir : string)
    (walk : list (string * list string * list string)) : list (string * string) :=
  flat_map (fun '(_, _, filenames) =>
    flat_map (fun name =>
      if PyStr.contains "_states.sto" name then
        let states_file := so_dir +:+ "/" +:+ name in
        [(trial_of states_file, states_file)]
      else []) filenames) walk.

End JRA.

(* ------------------------------------------------------------------ *)
(** ** The script entry point (lines 182-202) *)

(** How the process ends: normally, by an uncaught exception, or by
    [sys.exit]. *)
Inductive outcome : Type :=
| Completed
| Raised (e : exc)
| SystemExit (code : nat).

Definition outcome_of {A} (r : (exc + A) * state) : outcome * state :=
  match r with
  | (inl e, s') => (Raised e, s')
  | (inr _, s') => (Completed, s')
  end.

(** [if __name__ == "__main__":] with [sys.argv = argv]; logging is not
    modelled. *)
Definition main {time} (X : externals time) (cwd : string) (argv : list string)
    (s : state) : outcome * state :=
  match argv with
  | [_; tear_subjects_file; no_tear_subjects_file; split_emg_filepath;
     not_split_emg_filepath; root_dir; setup_template] =>
      outcome_of
        ((tear_text <- read_file tear_subjects_file ;;
          let tear_subjects := PyStr.splitlines tear_text in
          no_tear_text <- read_file no_tear_subjects_file ;;
          let no_tear_subjects := PyStr.splitlines no_tear_text in
          run_joint_reactions_analysis X cwd tear_subjects no_tear_subjects
            split_emg_filepath not_split_emg_filepath root_dir setup_template) s)
  | _ => (SystemExit 1, s)
  end.

(* ------------------------------------------------------------------ *)
(** ** A concrete world for evaluation *)

Module Demo.

(** Direct children of [top] that are files, in key order. *)
Definition files_under (fs : FS) (top : string) : list string :=
  omap (fun '(p, n) =>
          match n with
          | File _ =>
              if String.prefix (top +:+ "/") p then
                let name := String.substring (S (String.length top))
                              (String.length p) p in
                if PyStr.contains "/" name then None else Some name
              else None
          | Dir => None
          end) (map_to_list fs).

(** Time stamps are kept as their text; an empty states file does not
    load; the merge capabilities need their input file to exist. *)
Definition X : externals string := {|
  x_combine_files := fun fs p =>
    match fs !! p with
    | Some (File _) => (inr (p +:+ ".combined"), <[p +:+ ".combined" := File "c"]> fs)
    | _ => (inl (FileNotFoundError p), fs)
    end;
  x_save_combined_activations := fun fs a _ _ _ =>
    match fs !! a with
    | Some (File _) => (inr (a +:+ ".merged"), <[a +:+ ".merged" := File "m"]> fs)
    | _ => (inl (FileNotFoundError a), fs)
    end;
  x_storage := fun fs p =>
    match fs !! p with
    | Some (File c) =>
        if String.eqb c EmptyString then inl (ExternalError "empty storage")
        else inr (PyStr.split c " ")
    | _ => inl (FileNotFoundError p)
    end;
  x_empty_time := "nan";
  x_str_time := fun t => t;
  x_walk := fun fs top => [(top, [], files_under fs top)];
  x_engine := fun fs _ _ => (inr tt, fs);
|}.

Definition fs0 : FS :=
  list_to_map
    [("/d", Dir); ("/d/S1", Dir); ("/d/S1/S1_nosupra.osim", File "model");
     ("/d/S1/SO_Results", Dir);
     ("/d/S1/SO_Results/A_SO_StatesReporter_states.sto", File "0.1 0.5 1.0");
     ("/d/S1/SO_Results/A_SO_StaticOptimization_activation.sto", File "a");
     ("/d/S1/SO_Results/B_SO_StatesReporter_states.sto", File "0.2 0.9");
     ("/d/S1/SO_Results/B_SO_StaticOptimization_activation.sto", File "a");
     ("/d/S2", Dir); ("/d/S2/S2_clamped.osim", File "model");
     ("/d/S2/SO_Results", Dir);
     ("/d/S2/SO_Results/C_SO_StatesReporter_states.sto", File "0.0 2.0");
     ("/d/S2/SO_Results/C_SO_StaticOptimization_activation.sto", File "a");
     ("/tpl.xml", File "<m>MODEL_FILE</m><t>INITIAL_TIME FINAL_TIME</t><r>RESULTS_DIRECTORY/TRIAL_NAME</r>")].

Definition st0 : state := mkState fs0 [].

(** The same world with trial A's states file emptied. *)
Definition st_bad : state :=
  mkState (<["/d/S1/SO_Results/A_SO_StatesReporter_states.sto" := File ""]> fs0) [].

(** The same world with trial B's states file emptied. *)
Definition st_badB : state :=
  mkState (<["/d/S1/SO_Results/B_SO_StatesReporter_states.sto" := File ""]> fs0) [].

(** A world with two output directories and a template whose text next to
    a placeholder spells another one. *)
Definition st_out : state :=
  mkState (<["/tpl2.xml" := File "MODEL_TRIAL_NAME"]>
             (<["/out" := Dir]> (<["/tmp" := Dir]> fs0))) [].

(** The time stamps [0.10, 0.12, ..., 1.00] as exact rationals. *)
Definition timestamps : list Q :=
  map (fun k => Qmake (10 + 2 * Z.of_nat k) 100) (seq 0 46).

(** A world whose states files all hold [timestamps]. *)
Definition XQ : externals Q := {|
  x_combine_files := fun fs p => (inr (p +:+ ".combined"), fs);
  x_save_combined_activations := fun fs a _ _ _ => (inr (a +:+ ".merged"), fs);
  x_storage := fun _ _ => inr timestamps;
  x_empty_time := 0%Q;
  x_str_time := fun _ => "t";
  x_walk := fun _ _ => [];
  x_engine := fun fs _ _ => (inr tt, fs);
|}.

(** One call of [create_jra_setup] on trial A of subject S1. *)
Definition synth (setup_template trial_name : string) (s : state)
    : (exc + string) * state :=
  create_jra_setup X setup_template "/m.osim"
    "/d/S1/SO_Results/A_SO_StatesReporter_states.sto" "split.pkl" "whole.pkl"
    "0.1" "1.0" "/out" trial_name (Some true) s.

Definition run (s : state) : (exc + unit) * state :=
  run_joint_reactions_analysis X "/home/u" ["S1"] ["S2"] "split.pkl" "whole.pkl"
    "/d" "/tpl.xml" s.



End Demo.

(* ------------------------------------------------------------------ *)
(** ** Spec-side readings of trial discovery (Section 4.2 of the spec) *)

(** "the filename, stripping the path": what follows the last ['/']. *)
Fixpoint strip_path (s : string) : string :=
  match s with
  | EmptyString => EmptyString
  | String c s' =>
      if Ascii.eqb c "/" then strip_path s'
      else if PyStr.contains "/" s' then strip_path s'
      else s
  end.

(** "truncating at the first occurrence of" [sep]. *)
Fixpoint truncate_at (sep s : string) : string :=
  match s with
  | EmptyString => EmptyString
  | String c s' => if String.prefix sep s then EmptyString else String c (truncate_at sep s')
  end.

(** The seven placeholder tokens of the template. *)
Definition placeholders : list string :=
  ["MODEL_FILE"; "COMBINED_STATES_FILE"; "COMBINED_ACTIVATION_FILE";
   "INITIAL_TIME"; "FINAL_TIME"; "RESULTS_DIRECTORY"; "TRIAL_NAME"].

Definition has_placeholder (s : string) : bool :=
  existsb (fun t => PyStr.contains t s) placeholders.

(** A subject file: each pair is a line and whether it ends in \r\n
    rather than \n; [last] is a final line without a line end. *)
Definition eol (crlf : bool) : string :=
  if crlf then String PyStr.CR (String PyStr.LF EmptyString)
  else String PyStr.LF EmptyString.

Definition subject_file_text (lines : list (string * bool)) (last : string) : string :=
  fold_right (fun '(x, crlf) acc => x +:+ eol crlf +:+ acc) last lines.

Definition subject_file_ids (lines : list (string * bool)) (last : string) : list string :=
  map fst lines ++ (if String.eqb last EmptyString then [] else [last]).

(** [fs'] keeps every entry of [fs] as it is, and every entry it adds is a
    directory. *)
Definition fs_grows_by_dirs (fs fs' : FS) : Prop :=
  (forall p n, fs_lookup fs p = Some n -> fs_lookup fs' p = Some n) /\
  (forall p n, fs_lookup fs' p = Some n -> fs_lookup fs p = Some n \/ n = Dir).

(** A statement that, returning or raising, only adds directories and
    makes no call to the outside world. *)
Definition only_adds_dirs {A} (m : M A) : Prop :=
  forall s r s', m s = (r, s') ->
  fs_grows_by_dirs (st_fs s) (st_fs s') /\ st_io s' = st_io s.

(* ================================================================== *)
(** * Lemmas about the string layer *)

Lemma split_go_not_nil sep k s : PyStr.split_go sep k s <> [].
Proof.
  revert k; induction s as [|c s IH]; intros k; cbn [PyStr.split_go]; [congruence|].
  destruct k; [|apply IH].
  destruct (String.prefix sep (String c s)); [congruence|].
  destruct (PyStr.split_go sep 0 s); congruence.
Qed.

Lemma first_split_truncate s sep :
  PyStr.first (PyStr.split s sep) = truncate_at sep s.
Proof.
  unfold PyStr.split, PyStr.first.
  induction s as [|c s IH]; cbn [PyStr.split_go truncate_at]; [reflexivity|].
  destruct (String.prefix sep (String c s)); [reflexivity|].
  rewrite <- IH.
  pose proof (split_go_not_nil sep 0 s).
  destruct (PyStr.split_go sep 0 s); [congruence|reflexivity].
Qed.

Lemma prefix_slash c s :
  String.prefix "/" (String c s) = Ascii.eqb c "/".
Proof.
  cbn [String.prefix]. destruct (ascii_dec "/" c) as [<-|Hne]; [now destruct s|].
  symmetry. apply Ascii.eqb_neq. congruence.
Qed.

Lemma contains_slash_cons c s :
  PyStr.contains "/" (String c s) = Ascii.eqb c "/" || PyStr.contains "/" s.
Proof. cbn [PyStr.contains]. now rewrite prefix_slash. Qed.

Lemma split_slash_cons c s :
  PyStr.split_go "/" 0 (String c s) =
  if Ascii.eqb c "/" then EmptyString :: PyStr.split_go "/" 0 s
  else match PyStr.split_go "/" 0 s with
       | [] => [String c EmptyString]
       | x :: xs => String c x :: xs
       end.
Proof. cbn [PyStr.split_go]. rewrite prefix_slash. reflexivity. Qed.

Lemma split_slash_shape s :
  (PyStr.contains "/" s = false -> PyStr.split_go "/" 0 s = [s]) /\
  (PyStr.contains "/" s = true ->
     exists x y l, PyStr.split_go "/" 0 s = x :: y :: l).
Proof.
  induction s as [|c s [IHf IHt]]; [split; [reflexivity|discriminate]|].
  rewrite contains_slash_cons, split_slash_cons.
  destruct (Ascii.eqb c "/") eqn:Hc; simpl.
  - split; [discriminate|intros _].
    pose proof (split_go_not_nil "/" 0 s).
    destruct (PyStr.split_go "/" 0 s) as [|y l]; [congruence|eauto].
  - split.
    + intros H. now rewrite (IHf H).
    + intros H. destruct (IHt H) as (x & y & l & ->). eauto.
Qed.

Lemma last_split_slash s :
  PyStr.last (PyStr.split s "/") = strip_path s.
Proof.
  unfold PyStr.split, PyStr.last.
  induction s as [|c s IH]; [reflexivity|].
  rewrite split_slash_cons. simpl strip_path.
  destruct (Ascii.eqb c "/").
  - rewrite <- IH. pose proof (split_go_not_nil "/" 0 s).
    destruct (PyStr.split_go "/" 0 s); [congruence|reflexivity].
  - destruct (split_slash_shape s) as [Hf Ht].
    destruct (PyStr.contains "/" s) eqn:Hs.
    + destruct (Ht eq_refl) as (x & y & l & Heq).
      rewrite <- IH, Heq. reflexivity.
    + now rewrite (Hf eq_refl).
Qed.

Lemma contains_slash_app a b : PyStr.contains "/" (a +:+ "/" +:+ b) = true.
Proof.
  induction a as [|c a IH].
  - change ("" +:+ "/" +:+ b) with (String "/" b).
    now rewrite contains_slash_cons.
  - change (String c a +:+ "/" +:+ b) with (String c (a +:+ "/" +:+ b)).
    rewrite contains_slash_cons, IH. apply orb_true_r.
Qed.

Lemma strip_path_after_slash a b :
  strip_path (a +:+ "/" +:+ b) = strip_path b.
Proof.
  induction a as [|c a IH]; simpl; [reflexivity|].
  destruct (Ascii.eqb c "/"); [exact IH|].
  assert (Hc : PyStr.contains "/" (a +:+ "/" +:+ b) = true).
  { apply contains_slash_app. }
  now rewrite Hc.
Qed.

(** The trial name of a states file [so_dir/name], as the code computes
    it, is the spec's: strip the path, truncate at ["_SO"]. *)
Lemma trial_of_spec so_dir name :
  trial_of (so_dir +:+ "/" +:+ name) = truncate_at "_SO" (strip_path name).
Proof.
  unfold trial_of. rewrite first_split_truncate, last_split_slash.
  now rewrite strip_path_after_slash.
Qed.

Lemma discover_trials_flat so_dir walk :
  discover_trials so_dir walk =
  flat_map (fun name =>
      if PyStr.contains "_states.sto" name then
        [(trial_of (so_dir +:+ "/" +:+ name), so_dir +:+ "/" +:+ name)]
      else []) (flat_map (fun '(_, _, filenames) => filenames) walk).
Proof.
  unfold discover_trials. induction walk as [|[[d ds] fs] walk IH]; [reflexivity|].
  simpl. rewrite flat_map_app, IH. reflexivity.
Qed.

Lemma py_in_spec x l : py_in x l = true <-> In x l.
Proof.
  unfold py_in. rewrite existsb_exists. split.
  - intros (y & Hy & Heq). apply String.eqb_eq in Heq. now subst.
  - intros H. exists x. split; [exact H|apply String.eqb_refl].
Qed.

Lemma py_in_false x l : ~ In x l -> py_in x l = false.
Proof.
  intros H. destruct (py_in x l) eqn:E; [|reflexivity].
  exfalso. apply H, py_in_spec, E.
Qed.

(* ================================================================== *)
(** * Cohort classification: get_subject_info *)

(** C1.  With a data root whose last component happens to be the model
    file name of the subject, the SO-results and JRA-results paths are not
    the model's directory with [SO_Results] / [JRA_Results] appended:
    [str.replace] rewrites every occurrence of [<id>_nosupra.osim] in the
    model path, including the one inside the root. *)
Theorem get_subject_info_root_named_like_model :
  get_subject_info "/home/u" "/d/S1_nosupra.osim" "S1" ["S1"] [] =
  inr ("/d/S1_nosupra.osim/S1/S1_nosupra.osim",
       "/d/SO_Results/S1/SO_Results",
       "/d/JRA_Results/S1/JRA_Results", true).
Proof. vm_compute. reflexivity. Qed.

(** C4.  A subject in neither list is not classified: the function raises
    (Python's [UnboundLocalError] on [model_file], read at line 114 after
    neither branch assigned it) and returns no cohort. *)
Theorem get_subject_info_unclassified cwd root subject_id tear no_tear :
  ~ In subject_id tear -> ~ In subject_id no_tear ->
  get_subject_info cwd root subject_id tear no_tear =
  inl (UnboundLocalError "model_file").
Proof.
  intros Ht Hn. unfold get_subject_info.
  now rewrite (py_in_false _ _ Ht), (py_in_false _ _ Hn).
Qed.

Lemma get_subject_info_unclassified_witness :
  ~ In "S9" ["S1"] /\ ~ In "S9" ["S2"] /\
  get_subject_info "/home/u" "/d" "S9" ["S1"] ["S2"] =
  inl (UnboundLocalError "model_file").
Proof.
  assert (H1 : ~ In "S9" ["S1"]) by (simpl; intuition discriminate).
  assert (H2 : ~ In "S9" ["S2"]) by (simpl; intuition discriminate).
  split; [exact H1|split; [exact H2|]].
  exact (get_subject_info_unclassified "/home/u" "/d" "S9" ["S1"] ["S2"] H1 H2).
Defined.

(** C8.  A subject in both lists is classified by the tear branch, which is
    tested first: the result is the tear cohort with the [_nosupra] model
    and is the one obtained when the subject is removed from the no-tear
    list. *)
Theorem get_subject_info_in_both_lists cwd root subject_id tear no_tear :
  In subject_id tear ->
  get_subject_info cwd root subject_id tear no_tear =
  get_subject_info cwd root subject_id tear (List.remove string_dec subject_id no_tear) /\
  exists so_dir results_dir,
    get_subject_info cwd root subject_id tear no_tear =
    inr (PosixPath.abspath cwd
           (root +:+ "/" +:+ subject_id +:+ "/" +:+ subject_id +:+ "_nosupra.osim"),
         so_dir, results_dir, true).
Proof.
  intros Ht. apply py_in_spec in Ht. unfold get_subject_info. rewrite Ht.
  split; [reflexivity|]. eauto.
Qed.

Lemma get_subject_info_in_both_lists_witness :
  In "S1" ["S1"] /\
  get_subject_info "/home/u" "/d" "S1" ["S1"] ["S1"] =
  inr ("/d/S1/S1_nosupra.osim", "/d/S1/SO_Results", "/d/S1/JRA_Results", true).
Proof.
  assert (H : In "S1" ["S1"]) by (left; reflexivity).
  split; [exact H|].
  destruct (get_subject_info_in_both_lists "/home/u" "/d" "S1" ["S1"] ["S1"] H) as [E _].
  rewrite E. vm_compute. reflexivity.
Defined.

(* ================================================================== *)
(** * Trial discovery *)

(** C2.  On a listing made of [A]'s states and activation files and [B]'s
    states file, in any order and spread over any walk, discovery yields
    exactly the trials [A] and [B] with their own states files; and every
    discovered trial comes from a listed file name containing
    ["_states.sto"], is paired with [so_dir/name], and is named by [name]
    with its path stripped, truncated at the first ["_SO"]. *)
Theorem discover_trials_correct :
  (forall so_dir walk,
     Permutation (flat_map (fun '(_, _, filenames) => filenames) walk)
       ["A_SO_StatesReporter_states.sto"; "A_SO_StaticOptimization_activation.sto";
        "B_SO_StatesReporter_states.sto"] ->
     Permutation (discover_trials so_dir walk)
       [("A", so_dir +:+ "/" +:+ "A_SO_StatesReporter_states.sto");
        ("B", so_dir +:+ "/" +:+ "B_SO_StatesReporter_states.sto")]) /\
  (forall so_dir walk trial states_file,
     In (trial, states_file) (discover_trials so_dir walk) ->
     exists name,
       In name (flat_map (fun '(_, _, filenames) => filenames) walk) /\
       PyStr.contains "_states.sto" name = true /\
       states_file = so_dir +:+ "/" +:+ name /\
       trial = truncate_at "_SO" (strip_path name)).
Proof.
  split.
  - intros so_dir walk Hp. rewrite discover_trials_flat.
    eapply Permutation_trans; [apply (Permutation_flat_map _ Hp)|].
    cbn [flat_map]. rewrite !trial_of_spec. vm_compute. apply Permutation_refl.
  - intros so_dir walk trial states_file Hin.
    rewrite discover_trials_flat in Hin. apply in_flat_map in Hin as (name & Hn & Hsel).
    exists name. split; [exact Hn|].
    destruct (PyStr.contains "_states.sto" name); [|destruct Hsel].
    destruct Hsel as [Heq|[]]. injection Heq as <- <-.
    split; [reflexivity|split; [reflexivity|apply trial_of_spec]].
Qed.

Lemma discover_trials_correct_witness :
  Permutation (flat_map (fun '(_, _, filenames) => filenames)
                 [("/so", @nil string, ["B_SO_StatesReporter_states.sto";
                   "A_SO_StaticOptimization_activation.sto"; "A_SO_StatesReporter_states.sto"])])
    ["A_SO_StatesReporter_states.sto"; "A_SO_StaticOptimization_activation.sto";
     "B_SO_StatesReporter_states.sto"] /\
  Permutation (discover_trials "/so"
                 [("/so", @nil string, ["B_SO_StatesReporter_states.sto";
                   "A_SO_StaticOptimization_activation.sto"; "A_SO_StatesReporter_states.sto"])])
    [("A", "/so" +:+ "/" +:+ "A_SO_StatesReporter_states.sto");
     ("B", "/so" +:+ "/" +:+ "B_SO_StatesReporter_states.sto")].
Proof.
  assert (Hp : Permutation (flat_map (fun '(_, _, filenames) => filenames)
                 [("/so", @nil string, ["B_SO_StatesReporter_states.sto";
                   "A_SO_StaticOptimization_activation.sto"; "A_SO_StatesReporter_states.sto"])])
    ["A_SO_StatesReporter_states.sto"; "A_SO_StaticOptimization_activation.sto";
     "B_SO_StatesReporter_states.sto"]).
  { simpl. apply (Permutation_trans (l' := ["B_SO_StatesReporter_states.sto";
                   "A_SO_StatesReporter_states.sto"; "A_SO_StaticOptimization_activation.sto"])).
    - apply perm_skip, perm_swap.
    - apply (Permutation_trans (l' := ["A_SO_StatesReporter_states.sto";
                   "B_SO_StatesReporter_states.sto"; "A_SO_StaticOptimization_activation.sto"])).
      + apply perm_swap.
      + apply perm_skip, perm_swap. }
  split; [exact Hp|].
  exact (proj1 discover_trials_correct "/so" _ Hp).
Defined.

(* ================================================================== *)
(** * Results directory creation *)

(** C9.  Lines 154-156: an existing path is left alone, with no error and
    the file system unchanged; an absent one is created as a directory
    (when its parent, as [os.path.split] computes it, is a directory or
    the working directory), and nothing else changes. *)
Theorem ensure_results_dir_idempotent (s : state) (results_dir : string) :
  (fs_exists (st_fs s) results_dir = true ->
   ensure_results_dir results_dir s =
   (inr tt, mkState (st_fs s) (st_io s ++ [EvExists results_dir]))) /\
  (fs_exists (st_fs s) results_dir = false ->
   snd (PosixPath.path_split results_dir) <> EmptyString ->
   (fst (PosixPath.path_split results_dir) = EmptyString \/
    fs_lookup (st_fs s) (fst (PosixPath.path_split results_dir)) = Some Dir) ->
   ensure_results_dir results_dir s =
   (inr tt, mkState (<[results_dir := Dir]> (st_fs s))
              ((st_io s ++ [EvExists results_dir]) ++ [EvMakedirs results_dir]))).
Proof.
  destruct s as [fs io]. cbn [st_fs st_io]. split.
  - intros He. unfold ensure_results_dir, path_exists, bind, emit, get_fs, ret.
    cbn -[PosixPath.path_split fs_exists]. now rewrite He.
  - intros Hne Htail Hparent.
    unfold ensure_results_dir, path_exists, makedirs, mkdir, bind, emit, get_fs, ret, put_fs.
    cbn -[PosixPath.path_split fs_exists]. rewrite Hne. cbn -[PosixPath.path_split fs_exists].
    destruct (PosixPath.path_split results_dir) as [head tail] eqn:Hsplit.
    cbn [fst snd] in Htail, Hparent.
    apply String.eqb_neq in Htail. rewrite Htail.
    destruct (String.eqb head EmptyString) eqn:Hhe;
      cbn -[PosixPath.path_split fs_exists fs_lookup].
    + rewrite Hne, Hsplit. cbn -[fs_lookup]. now rewrite Hhe.
    + destruct Hparent as [Hh|Hh]; [subst head; discriminate|].
      rewrite Htail. unfold bind, get_fs, ret. cbn -[PosixPath.path_split fs_exists fs_lookup].
      assert (He : fs_exists fs head = true) by (unfold fs_exists; now rewrite Hh).
      rewrite He. unfold mkdir, bind, get_fs, ret, put_fs.
      cbn -[PosixPath.path_split fs_exists fs_lookup].
      rewrite Hne, Hsplit. cbn -[fs_lookup]. now rewrite Hhe, Hh.
Qed.

Lemma ensure_results_dir_idempotent_witness :
  ensure_results_dir "/d/S1/JRA_Results" Demo.st0 =
  (inr tt, mkState (<["/d/S1/JRA_Results" := Dir]> Demo.fs0)
             ((st_io Demo.st0 ++ [EvExists "/d/S1/JRA_Results"]) ++
              [EvMakedirs "/d/S1/JRA_Results"])) /\
  ensure_results_dir "/d/S1" Demo.st0 =
  (inr tt, mkState Demo.fs0 (st_io Demo.st0 ++ [EvExists "/d/S1"])).
Proof.
  split.
  - apply (proj2 (ensure_results_dir_idempotent Demo.st0 "/d/S1/JRA_Results"));
      vm_compute; [reflexivity|discriminate|right; reflexivity].
  - apply (proj1 (ensure_results_dir_idempotent Demo.st0 "/d/S1")).
    vm_compute. reflexivity.
Defined.

(* ================================================================== *)
(** * Configuration synthesis: create_jra_setup *)

Ltac crunch H :=
  unfold create_jra_setup, read_file, combine_files, save_combined_activations,
    call_external, write_file, emit, get_fs, put_fs, bind, ret, raise, lift in H;
  cbn -[PyStr.replace PosixPath.join fill_template PosixPath.path_split fs_lookup] in H;
  repeat match type of H with
    | context [match ?x with _ => _ end] =>
        lazymatch x with
        | context [match _ with _ => _ end] => fail
        | _ => let E := fresh "E" in destruct x eqn:E
        end;
        cbn -[PyStr.replace PosixPath.join fill_template PosixPath.path_split fs_lookup] in H
    end.

Lemma io_snoc3 {T} (l : list T) a b c : ((l ++ [a]) ++ [b]) ++ [c] = l ++ [a; b; c].
Proof. now rewrite <- !app_assoc. Qed.

Lemma io_snoc4 {T} (l : list T) a b c d :
  (((l ++ [a]) ++ [b]) ++ [c]) ++ [d] = l ++ [a; b; c; d].
Proof. now rewrite <- !app_assoc. Qed.

(** A computation whose result is known, paired with its own final state. *)
Lemma pair_snd_eq {A B} (x : A * B) a : fst x = a -> x = (a, snd x).
Proof. destruct x as [x1 x2]. cbn. now intros ->. Qed.

Lemma io_snoc2 {T} (l : list T) a b : (l ++ [a]) ++ [b] = l ++ [a; b].
Proof. now rewrite <- !app_assoc. Qed.

(** C10.  The activation file is the states path with every
    ["StatesReporter_states"] replaced by ["StaticOptimization_activation"];
    it is only ever handed to [save_combined_activations]: the calls
    [create_jra_setup] makes are, in order and up to the first one that
    raises, reading the template, [combine_files], [save_combined_activations]
    on that derived path and writing the setup file, with no existence
    check of any path.  Discovery does not look at activation files either:
    removing every name without ["_states.sto"] from the listing leaves its
    result unchanged. *)
Theorem activation_file_unchecked :
  (forall (time : Type) (X : externals time) setup_template model_file states_file
     split_emg not_split_emg initial_time final_time results_dir trial_name cohort
     s r s',
   create_jra_setup X setup_template model_file states_file split_emg not_split_emg
     initial_time final_time results_dir trial_name cohort s = (r, s') ->
   exists k,
     st_io s' = st_io s ++ firstn k
       [EvRead setup_template; EvCombineFiles states_file;
        EvSaveCombinedActivations
          (PyStr.replace states_file "StatesReporter_states" "StaticOptimization_activation")
          split_emg not_split_emg cohort;
        EvWrite (PosixPath.join results_dir (trial_name +:+ "_Setup.xml"))]) /\
  (forall so_dir walk,
   discover_trials so_dir walk =
   discover_trials so_dir
     (map (fun '(d, ds, names) => (d, ds, List.filter (PyStr.contains "_states.sto") names)) walk)).
Proof.
  split.
  - intros time X tpl m st sp nsp it ft res trial cohort [fs io] r s' H.
    crunch H; injection H as <- <-; cbn [st_io];
      first [ exists 1; reflexivity
            | exists 2; apply io_snoc2
            | exists 3; apply io_snoc3
            | exists 4; apply io_snoc4 ].
  - intros so_dir walk. rewrite !discover_trials_flat.
    induction walk as [|[[d ds] names] walk IH]; [reflexivity|].
    cbn [map flat_map]. rewrite !flat_map_app, IH. f_equal.
    induction names as [|n names IHn]; [reflexivity|].
    cbn [List.filter flat_map]. destruct (PyStr.contains "_states.sto" n) eqn:Hn.
    + cbn [flat_map app]. rewrite Hn. cbn [app]. now f_equal.
    + exact IHn.
Qed.


(** A successful run of [create_jra_setup], read backwards. *)
Lemma create_jra_setup_inv {time} (X : externals time) setup_template model_file
    states_file split_emg not_split_emg initial_time final_time results_dir
    trial_name cohort s p s' :
  create_jra_setup X setup_template model_file states_file split_emg not_split_emg
    initial_time final_time results_dir trial_name cohort s = (inr p, s') ->
  p = PosixPath.join results_dir (trial_name +:+ "_Setup.xml") /\
  exists content combined_states fs1 combined_activations fs2,
    fs_lookup (st_fs s) setup_template = Some (File content) /\
    TextIO.utf8_valid content = true /\
    x_combine_files X (st_fs s) states_file = (inr combined_states, fs1) /\
    x_save_combined_activations X fs1 (activation_file_of states_file)
      split_emg not_split_emg cohort = (inr combined_activations, fs2) /\
    TextIO.utf8_valid (fill_template (TextIO.translate_newlines content) model_file
      combined_states combined_activations (x_str_time X initial_time)
      (x_str_time X final_time) results_dir trial_name) = true /\
    st_fs s' = <[p := File (fill_template (TextIO.translate_newlines content) model_file
                              combined_states combined_activations
                              (x_str_time X initial_time) (x_str_time X final_time)
                              results_dir trial_name)]> fs2 /\
    st_io s' = st_io s ++
      [EvRead setup_template; EvCombineFiles states_file;
       EvSaveCombinedActivations (activation_file_of states_file)
         split_emg not_split_emg cohort; EvWrite p].
Proof.
  destruct s as [fs io]. intros H. crunch H; try discriminate H;
    injection H as <- <-; (split; [reflexivity|]); do 5 eexists;
    (split; [eassumption|]); (split; [eassumption|]); (split; [eassumption|]);
    (split; [eassumption|]); (split; [eassumption|]);
    cbn [st_fs st_io]; (split; [reflexivity|apply io_snoc4]).
Qed.

(** A run whose steps all succeed, read forwards. *)
Lemma create_jra_setup_ok {time} (X : externals time) setup_template model_file
    states_file split_emg not_split_emg initial_time final_time results_dir
    trial_name cohort fs io content combined_states fs1 combined_activations fs2 :
  let p := PosixPath.join results_dir (trial_name +:+ "_Setup.xml") in
  let filled := fill_template (TextIO.translate_newlines content) model_file
                  combined_states combined_activations (x_str_time X initial_time)
                  (x_str_time X final_time) results_dir trial_name in
  fs_lookup fs setup_template = Some (File content) ->
  TextIO.utf8_valid content = true ->
  x_combine_files X fs states_file = (inr combined_states, fs1) ->
  x_save_combined_activations X fs1 (activation_file_of states_file)
    split_emg not_split_emg cohort = (inr combined_activations, fs2) ->
  TextIO.utf8_valid filled = true ->
  fs_lookup fs2 p <> Some Dir ->
  (fst (PosixPath.path_split p) = EmptyString \/
   fs_lookup fs2 (fst (PosixPath.path_split p)) = Some Dir) ->
  create_jra_setup X setup_template model_file states_file split_emg not_split_emg
    initial_time final_time results_dir trial_name cohort (mkState fs io) =
  (inr p, mkState (<[p := File filled]> fs2)
            (io ++ [EvRead setup_template; EvCombineFiles states_file;
                    EvSaveCombinedActivations (activation_file_of states_file)
                      split_emg not_split_emg cohort; EvWrite p])).
Proof.
  intros p filled Ht Hv Hc Hs Hf Hnd Hpar.
  unfold create_jra_setup, read_file, combine_files, save_combined_activations,
    call_external, write_file, emit, get_fs, put_fs, bind, ret, raise, lift.
  cbn -[PyStr.replace PosixPath.join fill_template PosixPath.path_split fs_lookup
        activation_file_of TextIO.utf8_valid TextIO.translate_newlines].
  rewrite Ht, Hv. cbn -[PyStr.replace PosixPath.join fill_template PosixPath.path_split
                    fs_lookup activation_file_of TextIO.utf8_valid TextIO.translate_newlines].
  rewrite Hc. cbn -[PyStr.replace PosixPath.join fill_template PosixPath.path_split
                    fs_lookup activation_file_of TextIO.utf8_valid TextIO.translate_newlines].
  rewrite Hs. cbn -[PyStr.replace PosixPath.join fill_template PosixPath.path_split
                    fs_lookup activation_file_of TextIO.utf8_valid TextIO.translate_newlines].
  fold p filled. rewrite Hf.
  destruct (fs_lookup fs2 p) as [[|old]|] eqn:Ep; [congruence| |];
  (destruct Hpar as [Hpar|Hpar];
   [rewrite Hpar; cbn; now rewrite io_snoc4
   |destruct (String.eqb (fst (PosixPath.path_split p)) EmptyString);
    [cbn; now rewrite io_snoc4|rewrite Hpar; cbn; now rewrite io_snoc4]]).
Qed.




(** C7 (counterexample).  The synthesizer does not check for leftover
    placeholders: with the template [MODEL_TRIAL_NAME] and the trial name
    [FILE], no input value contains a placeholder, yet the written setup
    file is [MODEL_FILE]. *)
Lemma create_jra_setup_leftover_placeholder :
  forallb (fun v => negb (has_placeholder v))
    ["/m.osim"; "/d/S1/SO_Results/A_SO_StatesReporter_states.sto.combined";
     "/d/S1/SO_Results/A_SO_StaticOptimization_activation.sto.merged";
     "0.1"; "1.0"; "/out"; "FILE"] = true /\
  fst (create_jra_setup Demo.X "/tpl2.xml" "/m.osim"
         "/d/S1/SO_Results/A_SO_StatesReporter_states.sto" "split.pkl" "whole.pkl"
         "0.1" "1.0" "/out" "FILE" (Some true) Demo.st_out) =
  inr "/out/FILE_Setup.xml" /\
  st_fs (snd (create_jra_setup Demo.X "/tpl2.xml" "/m.osim"
         "/d/S1/SO_Results/A_SO_StatesReporter_states.sto" "split.pkl" "whole.pkl"
         "0.1" "1.0" "/out" "FILE" (Some true) Demo.st_out)) !! "/out/FILE_Setup.xml" =
  Some (File "MODEL_FILE") /\
  has_placeholder "MODEL_FILE" = true.
Proof. vm_compute. repeat split. Qed.

(** C7.  Re-running [create_jra_setup] with the same inputs, the same
    template text and the same results of the merge capabilities returns
    the same path and leaves the same text there; the first run's file at
    that path does not make the second run fail, it is overwritten. *)
Theorem create_jra_setup_rerun :
  forall (time : Type) (X : externals time) setup_template model_file states_file
    split_emg not_split_emg initial_time final_time results_dir trial_name cohort
    content combined_states combined_activations s1 p s1' s2 fs2a fs2b old,
  create_jra_setup X setup_template model_file states_file split_emg not_split_emg
    initial_time final_time results_dir trial_name cohort s1 = (inr p, s1') ->
  fs_lookup (st_fs s1) setup_template = Some (File content) ->
  (exists fs1a, x_combine_files X (st_fs s1) states_file = (inr combined_states, fs1a) /\
   exists fs1b, x_save_combined_activations X fs1a (activation_file_of states_file)
                  split_emg not_split_emg cohort = (inr combined_activations, fs1b)) ->
  fs_lookup (st_fs s2) setup_template = Some (File content) ->
  x_combine_files X (st_fs s2) states_file = (inr combined_states, fs2a) ->
  x_save_combined_activations X fs2a (activation_file_of states_file)
    split_emg not_split_emg cohort = (inr combined_activations, fs2b) ->
  fs_lookup fs2b p = Some (File old) ->
  (fst (PosixPath.path_split p) = EmptyString \/
   fs_lookup fs2b (fst (PosixPath.path_split p)) = Some Dir) ->
  exists s2',
    create_jra_setup X setup_template model_file states_file split_emg not_split_emg
      initial_time final_time results_dir trial_name cohort s2 = (inr p, s2') /\
    st_fs s2' !! p = st_fs s1' !! p.
Proof.
  intros time X tpl m st sp nsp it ft res trial cohort content cs ca s1 p s1' s2
    fs2a fs2b old H1 Ht1 (fs1a & Hc1 & fs1b & Hs1) Ht2 Hc2 Hs2 Hold Hpar.
  destruct (create_jra_setup_inv X tpl m st sp nsp it ft res trial cohort s1 p s1' H1)
    as [Hp (c' & cs' & fs1a' & ca' & fs1b' & Ht' & Hv' & Hc' & Hs' & Hf' & Hfs & _)].
  rewrite Ht1 in Ht'. injection Ht' as <-.
  rewrite Hc1 in Hc'. injection Hc' as <- <-.
  rewrite Hs1 in Hs'. injection Hs' as <- <-.
  destruct s2 as [fs2 io2]. cbn [st_fs] in *.
  subst p.
  eexists. split.
  - apply (create_jra_setup_ok X tpl m st sp nsp it ft res trial cohort fs2 io2
             content cs fs2a ca fs2b Ht2 Hv' Hc2 Hs2 Hf'); [congruence|exact Hpar].
  - rewrite Hfs. cbn [st_fs]. now rewrite !lookup_insert_eq.
Qed.

Lemma create_jra_setup_rerun_witness :
  exists s2',
    Demo.synth "/tpl.xml" "A_JRA" (snd (Demo.synth "/tpl.xml" "A_JRA" Demo.st_out)) =
    (inr "/out/A_JRA_Setup.xml", s2') /\
    st_fs s2' !! "/out/A_JRA_Setup.xml" =
    st_fs (snd (Demo.synth "/tpl.xml" "A_JRA" Demo.st_out)) !! "/out/A_JRA_Setup.xml".
Proof.
  pose (s1 := Demo.st_out).
  pose (s2 := snd (Demo.synth "/tpl.xml" "A_JRA" Demo.st_out)).
  pose (st := "/d/S1/SO_Results/A_SO_StatesReporter_states.sto").
  pose (fs2a := snd (x_combine_files Demo.X (st_fs s2) st)).
  pose (fs2b := snd (x_save_combined_activations Demo.X fs2a (activation_file_of st)
                       "split.pkl" "whole.pkl" (Some true))).
  apply (create_jra_setup_rerun string Demo.X "/tpl.xml" "/m.osim" st
           "split.pkl" "whole.pkl" "0.1" "1.0" "/out" "A_JRA" (Some true)
           "<m>MODEL_FILE</m><t>INITIAL_TIME FINAL_TIME</t><r>RESULTS_DIRECTORY/TRIAL_NAME</r>"
           (st +:+ ".combined") (activation_file_of st +:+ ".merged")
           s1 "/out/A_JRA_Setup.xml" s2 s2 fs2a fs2b
           "<m>/m.osim</m><t>0.1 1.0</t><r>/out/A_JRA</r>").
  all: subst s1 s2 st fs2a fs2b.
  - apply pair_snd_eq. vm_compute. reflexivity.
  - vm_compute. reflexivity.
  - eexists. split; [apply pair_snd_eq; vm_compute; reflexivity|].
    eexists. apply pair_snd_eq. vm_compute. reflexivity.
  - vm_compute. reflexivity.
  - apply pair_snd_eq. vm_compute. reflexivity.
  - apply pair_snd_eq. vm_compute. reflexivity.
  - vm_compute. reflexivity.
  - right. vm_compute. reflexivity.
Defined.

Lemma activation_file_unchecked_witness :
  exists k,
    st_io (snd (Demo.synth "/tpl.xml" "A_JRA" Demo.st_out)) =
    st_io Demo.st_out ++ firstn k
      [EvRead "/tpl.xml"; EvCombineFiles "/d/S1/SO_Results/A_SO_StatesReporter_states.sto";
       EvSaveCombinedActivations
         (PyStr.replace "/d/S1/SO_Results/A_SO_StatesReporter_states.sto"
            "StatesReporter_states" "StaticOptimization_activation")
         "split.pkl" "whole.pkl" (Some true);
       EvWrite (PosixPath.join "/out" ("A_JRA" +:+ "_Setup.xml"))].
Proof.
  apply (proj1 activation_file_unchecked string Demo.X "/tpl.xml" "/m.osim"
           "/d/S1/SO_Results/A_SO_StatesReporter_states.sto" "split.pkl" "whole.pkl"
           "0.1" "1.0" "/out" "A_JRA" (Some true) Demo.st_out
           (fst (Demo.synth "/tpl.xml" "A_JRA" Demo.st_out))
           (snd (Demo.synth "/tpl.xml" "A_JRA" Demo.st_out))).
  apply surjective_pairing.
Defined.

(* ================================================================== *)
(** * Time window *)

Lemma last_default_irrelevant {A} (x : A) (l : list A) d d' :
  List.last (x :: l) d = List.last (x :: l) d'.
Proof.
  revert x. induction l as [|y l IH]; intros x; [reflexivity|].
  change (List.last (y :: l) d = List.last (y :: l) d'). apply IH.
Qed.

(** C6.  When the states file loads with at least one row, the window
    [prep_joint_reactions_analysis] hands to [create_jra_setup] is the
    first and the last recorded time; on the time stamps
    [0.10, 0.12, ..., 1.00] it is exactly [0.10] and [1.00]. *)
Theorem prep_time_window :
  (forall (time : Type) (X : externals time) setup_template model_file states_file
     results_dir split_emg not_split_emg trial_name cohort s t0 rest,
   x_storage X (st_fs s) states_file = inr (t0 :: rest) ->
   prep_joint_reactions_analysis X setup_template model_file states_file results_dir
     split_emg not_split_emg trial_name cohort s =
   create_jra_setup X setup_template model_file states_file split_emg not_split_emg
     t0 (List.last (t0 :: rest) t0) results_dir trial_name cohort
     (mkState (st_fs s) (st_io s ++ [EvStorage states_file]))) /\
  (forall (X : externals Q) setup_template model_file states_file
     results_dir split_emg not_split_emg trial_name cohort s,
   x_storage X (st_fs s) states_file = inr Demo.timestamps ->
   prep_joint_reactions_analysis X setup_template model_file states_file results_dir
     split_emg not_split_emg trial_name cohort s =
   create_jra_setup X setup_template model_file states_file split_emg not_split_emg
     (Qmake 10 100) (Qmake 100 100) results_dir trial_name cohort
     (mkState (st_fs s) (st_io s ++ [EvStorage states_file]))).
Proof.
  assert (Hgen : forall (time : Type) (X : externals time) setup_template model_file
     states_file results_dir split_emg not_split_emg trial_name cohort s t0 rest,
   x_storage X (st_fs s) states_file = inr (t0 :: rest) ->
   prep_joint_reactions_analysis X setup_template model_file states_file results_dir
     split_emg not_split_emg trial_name cohort s =
   create_jra_setup X setup_template model_file states_file split_emg not_split_emg
     t0 (List.last (t0 :: rest) t0) results_dir trial_name cohort
     (mkState (st_fs s) (st_io s ++ [EvStorage states_file]))).
  { intros time X tpl m st res sp nsp trial cohort [fs io] t0 rest H.
    unfold prep_joint_reactions_analysis, osim_Storage, call_external, emit, get_fs,
      put_fs, bind, lift, ret.
    cbn [st_fs st_io] in *. rewrite H.
    unfold getFirstTime, getLastTime.
    now rewrite (last_default_irrelevant t0 rest (x_empty_time X) t0). }
  split; [exact Hgen|].
  intros X tpl m st res sp nsp trial cohort s H.
  change Demo.timestamps with (Qmake 10 100 :: tl Demo.timestamps) in H.
  rewrite (Hgen Q X tpl m st res sp nsp trial cohort s _ _ H).
  reflexivity.
Qed.

Lemma prep_time_window_witness :
  prep_joint_reactions_analysis Demo.XQ "/tpl.xml" "/m.osim" "/so/A_states.sto" "/out"
    "split.pkl" "whole.pkl" "A_JRA" (Some true) Demo.st_out =
  create_jra_setup Demo.XQ "/tpl.xml" "/m.osim" "/so/A_states.sto" "split.pkl" "whole.pkl"
    (Qmake 10 100) (Qmake 100 100) "/out" "A_JRA" (Some true)
    (mkState (st_fs Demo.st_out) (st_io Demo.st_out ++ [EvStorage "/so/A_states.sto"])).
Proof.
  apply (proj2 prep_time_window Demo.XQ "/tpl.xml" "/m.osim" "/so/A_states.sto" "/out"
           "split.pkl" "whole.pkl" "A_JRA" (Some true) Demo.st_out).
  reflexivity.
Defined.

(* ================================================================== *)
(** * Failure propagation in the batch *)

Lemma py_for_raise {A} (before after : list A) (x : A) (body : A -> M unit)
    s s1 e s2 :
  py_for before body s = (inr tt, s1) ->
  body x s1 = (inl e, s2) ->
  py_for (before ++ x :: after) body s = (inl e, s2).
Proof.
  revert s. induction before as [|y before IH]; intros s Hb Hx.
  - cbn in Hb. injection Hb as <-. cbn. unfold bind. now rewrite Hx.
  - cbn in Hb |- *. unfold bind in Hb |- *.
    destruct (body y s) as [[e'|[]] s'] eqn:Hy; [discriminate|].
    now apply IH.
Qed.

(** C5 (counterexample).  In the demo batch (subject S1 with trials A and
    B, subject S2 with trial C), emptying A's states file makes the run
    raise at A's [Storage] call: B's and C's trials, which the unmodified
    batch does analyse, are never reached. *)
Lemma batch_stops_at_first_failing_trial :
  fst (Demo.run Demo.st_bad) = inl (ExternalError "empty storage") /\
  st_io (snd (Demo.run Demo.st_bad)) =
    [EvExists "/d/S1/JRA_Results"; EvMakedirs "/d/S1/JRA_Results";
     EvWalk "/d/S1/SO_Results";
     EvStorage "/d/S1/SO_Results/A_SO_StatesReporter_states.sto"] /\
  nth_error (st_io (snd (Demo.run Demo.st0))) 14 =
    Some (EvEngine "/d/S1/S1_nosupra.osim" "/d/S1/JRA_Results/B_JRA_Setup.xml") /\
  nth_error (st_io (snd (Demo.run Demo.st0))) 23 =
    Some (EvEngine "/d/S2/S2_clamped.osim" "/d/S2/JRA_Results/C_JRA_Setup.xml").
Proof. vm_compute. repeat split. Qed.

Lemma bind_inr {A B} (m : M A) (k : A -> M B) s a s' :
  m s = (inr a, s') -> bind m k s = k a s'.
Proof. intros H. unfold bind. now rewrite H. Qed.

Lemma os_walk_run {time} (X : externals time) top s :
  os_walk X top s =
  (inr (x_walk X (st_fs s) top), mkState (st_fs s) (st_io s ++ [EvWalk top])).
Proof. now destruct s. Qed.

(** One subject, read through its [os.walk] loop: a trial that raises
    ends the subject with that exception. *)
Lemma process_subject_trial_raise {time} (X : externals time) cwd tear_subjects
    no_tear_subjects split_emg not_split_emg root_dir setup_template subject_id
    model_file so_dir results_dir cohort s s1 walk1 d ds names1 name names2 walk2
    s3 s4 e s5 :
  get_subject_info cwd root_dir subject_id tear_subjects no_tear_subjects =
    inr (model_file, so_dir, results_dir, cohort) ->
  ensure_results_dir results_dir s = (inr tt, s1) ->
  x_walk X (st_fs s1) so_dir = walk1 ++ (d, ds, names1 ++ name :: names2) :: walk2 ->
  py_for walk1 (fun '(_, _, filenames) =>
      py_for filenames (process_name X setup_template model_file so_dir results_dir
                          split_emg not_split_emg cohort))
    (mkState (st_fs s1) (st_io s1 ++ [EvWalk so_dir])) = (inr tt, s3) ->
  py_for names1 (process_name X setup_template model_file so_dir results_dir
                   split_emg not_split_emg cohort) s3 = (inr tt, s4) ->
  process_name X setup_template model_file so_dir results_dir split_emg
    not_split_emg cohort name s4 = (inl e, s5) ->
  process_subject X cwd tear_subjects no_tear_subjects split_emg not_split_emg
    root_dir setup_template subject_id s = (inl e, s5).
Proof.
  intros Hinfo Hens Hwalk Hw1 Hn1 Hname.
  unfold process_subject. rewrite Hinfo. cbn [lift].
  rewrite (bind_inr _ _ s (model_file, so_dir, results_dir, cohort) s) by reflexivity.
  cbv beta iota.
  rewrite (bind_inr _ _ _ _ _ Hens). cbv beta.
  rewrite (bind_inr _ _ _ _ _ (os_walk_run X so_dir s1)). cbv beta.
  rewrite Hwalk.
  exact (py_for_raise walk1 walk2 (d, ds, names1 ++ name :: names2) _ _ _ e s5 Hw1
           (py_for_raise names1 names2 name _ s3 s4 e s5 Hn1 Hname)).
Qed.

(** C5.  The orchestrator has no per-trial or per-subject recovery: when a
    trial raises (at [Storage], the template read, a merge capability, the
    setup write or the engine), the exception leaves the loop over the
    listing, [process_subject]'s [os.walk] loop and the loop over the
    subjects unchanged, and the run ends in exactly the state the failing
    trial left, so no later trial of that subject and no later subject is
    processed. *)
Theorem batch_failure_propagates :
  forall (time : Type) (X : externals time) cwd tear_subjects no_tear_subjects
    split_emg not_split_emg root_dir setup_template before subject_id after
    s0 s model_file so_dir results_dir cohort s1 walk1 d ds names1 name names2 walk2
    s3 s4 e s5,
  tear_subjects ++ no_tear_subjects = before ++ subject_id :: after ->
  py_for before (process_subject X cwd tear_subjects no_tear_subjects split_emg
                   not_split_emg root_dir setup_template) s0 = (inr tt, s) ->
  get_subject_info cwd root_dir subject_id tear_subjects no_tear_subjects =
    inr (model_file, so_dir, results_dir, cohort) ->
  ensure_results_dir results_dir s = (inr tt, s1) ->
  x_walk X (st_fs s1) so_dir = walk1 ++ (d, ds, names1 ++ name :: names2) :: walk2 ->
  py_for walk1 (fun '(_, _, filenames) =>
      py_for filenames (process_name X setup_template model_file so_dir results_dir
                          split_emg not_split_emg cohort))
    (mkState (st_fs s1) (st_io s1 ++ [EvWalk so_dir])) = (inr tt, s3) ->
  py_for names1 (process_name X setup_template model_file so_dir results_dir
                   split_emg not_split_emg cohort) s3 = (inr tt, s4) ->
  process_name X setup_template model_file so_dir results_dir split_emg
    not_split_emg cohort name s4 = (inl e, s5) ->
  run_joint_reactions_analysis X cwd tear_subjects no_tear_subjects split_emg
    not_split_emg root_dir setup_template s0 = (inl e, s5).
Proof.
  intros time X cwd T N sp nsp root tpl before sid after s0 s m so res cohort s1
    walk1 d ds names1 name names2 walk2 s3 s4 e s5 Hl Hb Hinfo Hens Hwalk Hw1 Hn1 Hname.
  unfold run_joint_reactions_analysis. rewrite Hl.
  apply (py_for_raise before after sid _ s0 s e s5 Hb).
  exact (process_subject_trial_raise X cwd T N sp nsp root tpl sid m so res cohort
           s s1 walk1 d ds names1 name names2 walk2 s3 s4 e s5
           Hinfo Hens Hwalk Hw1 Hn1 Hname).
Qed.

Lemma batch_failure_propagates_witness :
  run_joint_reactions_analysis Demo.X "/home/u" ["S1"] ["S2"] "split.pkl" "whole.pkl"
    "/d" "/tpl.xml" Demo.st_badB =
  (inl (ExternalError "empty storage"),
   snd (process_name Demo.X "/tpl.xml" "/d/S1/S1_nosupra.osim" "/d/S1/SO_Results"
          "/d/S1/JRA_Results" "split.pkl" "whole.pkl" true "B_SO_StatesReporter_states.sto"
          (snd (py_for ["A_SO_StatesReporter_states.sto"; "A_SO_StaticOptimization_activation.sto"]
                  (process_name Demo.X "/tpl.xml" "/d/S1/S1_nosupra.osim" "/d/S1/SO_Results"
                     "/d/S1/JRA_Results" "split.pkl" "whole.pkl" true)
                  (mkState (st_fs (snd (ensure_results_dir "/d/S1/JRA_Results" Demo.st_badB)))
                     (st_io (snd (ensure_results_dir "/d/S1/JRA_Results" Demo.st_badB))
                      ++ [EvWalk "/d/S1/SO_Results"])))))).
Proof.
  refine (batch_failure_propagates string Demo.X "/home/u" ["S1"] ["S2"] "split.pkl"
            "whole.pkl" "/d" "/tpl.xml" [] "S1" ["S2"] Demo.st_badB Demo.st_badB
            "/d/S1/S1_nosupra.osim" "/d/S1/SO_Results" "/d/S1/JRA_Results" true
            (snd (ensure_results_dir "/d/S1/JRA_Results" Demo.st_badB))
            [] "/d/S1/SO_Results" []
            ["A_SO_StatesReporter_states.sto"; "A_SO_StaticOptimization_activation.sto"]
            "B_SO_StatesReporter_states.sto" ["B_SO_StaticOptimization_activation.sto"] []
            (mkState (st_fs (snd (ensure_results_dir "/d/S1/JRA_Results" Demo.st_badB)))
               (st_io (snd (ensure_results_dir "/d/S1/JRA_Results" Demo.st_badB))
                ++ [EvWalk "/d/S1/SO_Results"]))
            (snd (py_for ["A_SO_StatesReporter_states.sto"; "A_SO_StaticOptimization_activation.sto"]
                    (process_name Demo.X "/tpl.xml" "/d/S1/S1_nosupra.osim" "/d/S1/SO_Results"
                       "/d/S1/JRA_Results" "split.pkl" "whole.pkl" true)
                    (mkState (st_fs (snd (ensure_results_dir "/d/S1/JRA_Results" Demo.st_badB)))
                       (st_io (snd (ensure_results_dir "/d/S1/JRA_Results" Demo.st_badB))
                        ++ [EvWalk "/d/S1/SO_Results"]))))
            (ExternalError "empty storage") _ _ _ _ _ _ _ _ _);
    vm_compute; reflexivity.
Defined.

(* ================================================================== *)
(** * Reading the subject lists: str.splitlines *)

Lemma str_app_assoc (a b c : string) : (a +:+ b) +:+ c = a +:+ (b +:+ c).
Proof.
  induction a as [|x a IH]; [reflexivity|].
  change (String x ((a +:+ b) +:+ c) = String x (a +:+ (b +:+ c))). now rewrite IH.
Qed.

Lemma break_len_none_cr c x :
  PyStr.break_len (String c x) = None -> Ascii.eqb c PyStr.CR = false.
Proof.
  cbn [PyStr.break_len]. destruct (Ascii.eqb c PyStr.CR); [|reflexivity].
  destruct x as [|d x]; [discriminate|]. destruct (Ascii.eqb d PyStr.LF); discriminate.
Qed.

(** A boundary cannot straddle the end of a line followed by \n. *)
Lemma break_len_app_lf c x z :
  PyStr.break_len (String c x) = None ->
  PyStr.break_len (String c (x +:+ String PyStr.LF z)) = None.
Proof.
  cbn [PyStr.break_len]. intros H.
  destruct (Ascii.eqb c PyStr.CR); [destruct x as [|d x]; [discriminate|];
    destruct (Ascii.eqb d PyStr.LF); discriminate|].
  destruct (existsb _ _); [discriminate|].
  destruct (Ascii.eqb c (ascii_of_nat 194)).
  - destruct x as [|d x]; [reflexivity|exact H].
  - destruct (Ascii.eqb c (ascii_of_nat 226)); [|exact H].
    destruct x as [|d [|e x]]; [destruct z; reflexivity| |exact H].
    change (String d "" +:+ String PyStr.LF z) with (String d (String PyStr.LF z)).
    cbn. rewrite andb_false_r. reflexivity.
Qed.

Lemma no_line_break_cons c x :
  PyStr.no_line_break (String c x) = true ->
  PyStr.break_len (String c x) = None /\ PyStr.no_line_break x = true.
Proof.
  cbn [PyStr.no_line_break]. destruct (PyStr.break_len (String c x)); [discriminate|].
  now split.
Qed.

Lemma splitlines_go_lf rest :
  PyStr.splitlines_go 0 (String PyStr.LF rest) = EmptyString :: PyStr.splitlines_go 0 rest.
Proof. reflexivity. Qed.

Lemma splitlines_one x :
  PyStr.no_line_break x = true -> x <> EmptyString -> PyStr.splitlines_go 0 x = [x].
Proof.
  induction x as [|c x IH]; intros Hx Hne; [congruence|].
  apply no_line_break_cons in Hx as [Hb Hx].
  cbn [PyStr.splitlines_go]. rewrite Hb.
  destruct x as [|d x]; [reflexivity|].
  rewrite IH; [reflexivity|exact Hx|congruence].
Qed.

Lemma splitlines_line x rest :
  PyStr.no_line_break x = true ->
  PyStr.splitlines_go 0 (x +:+ String PyStr.LF rest) =
  x :: PyStr.splitlines_go 0 rest.
Proof.
  induction x as [|c x IH]; intros Hx; [apply splitlines_go_lf|].
  apply no_line_break_cons in Hx as [Hb Hx].
  change (String c x +:+ ?t) with (String c (x +:+ t)).
  cbn [PyStr.splitlines_go]. rewrite (break_len_app_lf c x rest Hb), (IH Hx).
  reflexivity.
Qed.

Lemma translate_line x crlf rest :
  PyStr.no_line_break x = true ->
  TextIO.translate_newlines (x +:+ eol crlf +:+ rest) =
  x +:+ String PyStr.LF (TextIO.translate_newlines rest).
Proof.
  induction x as [|c x IH]; intros Hx.
  - destruct crlf; reflexivity.
  - pose proof (proj1 (no_line_break_cons c x Hx)) as Hb.
    apply no_line_break_cons in Hx as [_ Hx].
    change (String c x +:+ ?t) with (String c (x +:+ t)).
    cbn [TextIO.translate_newlines]. rewrite (break_len_none_cr c x Hb), (IH Hx).
    reflexivity.
Qed.

Lemma translate_last x :
  PyStr.no_line_break x = true -> TextIO.translate_newlines x = x.
Proof.
  induction x as [|c x IH]; intros Hx; [reflexivity|].
  pose proof (proj1 (no_line_break_cons c x Hx)) as Hb.
  apply no_line_break_cons in Hx as [_ Hx].
  cbn [TextIO.translate_newlines]. rewrite (break_len_none_cr c x Hb), (IH Hx).
  reflexivity.
Qed.

Lemma splitlines_subject_file lines last :
  Forall (fun l => PyStr.no_line_break (fst l) = true) lines ->
  PyStr.no_line_break last = true ->
  PyStr.splitlines (TextIO.translate_newlines (subject_file_text lines last)) =
  subject_file_ids lines last.
Proof.
  intros Hl Hlast. unfold PyStr.splitlines, subject_file_ids, subject_file_text.
  induction Hl as [|[x crlf] lines Hx Hl IH].
  - cbn [fold_right map List.app]. rewrite translate_last by exact Hlast.
    destruct (String.eqb last EmptyString) eqn:E.
    + apply String.eqb_eq in E. now subst.
    + apply String.eqb_neq in E. now apply splitlines_one.
  - cbn [fold_right map List.app fst] in *.
    rewrite translate_line by exact Hx. rewrite splitlines_line by exact Hx.
    now rewrite IH.
Qed.

(* ================================================================== *)
(** * The script entry point *)

(** Lines 189-202.  With seven command-line words the script reads the
    tear-subject file, then the no-tear-subject file, and runs the batch on
    their lines.  For subject files that are valid UTF-8 and written one
    identifier per line, each line ended by \n or by \r\n (mixed freely),
    with an optional last line without a line end, the batch gets exactly
    those identifiers in order; an empty line gives an empty identifier,
    and no empty identifier comes from the final line end. *)
Theorem main_reads_subject_lists {time} (X : externals time) cwd prog
    tear_subjects_file no_tear_subjects_file split_emg_filepath
    not_split_emg_filepath root_dir setup_template s
    tear_lines tear_last no_tear_lines no_tear_last :
  Forall (fun l => PyStr.no_line_break (fst l) = true) tear_lines ->
  PyStr.no_line_break tear_last = true ->
  Forall (fun l => PyStr.no_line_break (fst l) = true) no_tear_lines ->
  PyStr.no_line_break no_tear_last = true ->
  fs_lookup (st_fs s) tear_subjects_file =
    Some (File (subject_file_text tear_lines tear_last)) ->
  TextIO.utf8_valid (subject_file_text tear_lines tear_last) = true ->
  fs_lookup (st_fs s) no_tear_subjects_file =
    Some (File (subject_file_text no_tear_lines no_tear_last)) ->
  TextIO.utf8_valid (subject_file_text no_tear_lines no_tear_last) = true ->
  main X cwd [prog; tear_subjects_file; no_tear_subjects_file; split_emg_filepath;
              not_split_emg_filepath; root_dir; setup_template] s =
  outcome_of (run_joint_reactions_analysis X cwd
                (subject_file_ids tear_lines tear_last)
                (subject_file_ids no_tear_lines no_tear_last)
                split_emg_filepath not_split_emg_filepath root_dir setup_template
                (mkState (st_fs s) (st_io s ++ [EvRead tear_subjects_file;
                                                EvRead no_tear_subjects_file]))).
Proof.
  intros Ht Htl Hn Hnl Hft Hvt Hfn Hvn.
  destruct s as [fs io]. cbn [st_fs st_io] in *.
  unfold main, read_file, emit, get_fs, bind, ret, raise.
  cbn -[run_joint_reactions_analysis fs_lookup PyStr.splitlines TextIO.utf8_valid
        TextIO.translate_newlines subject_file_text].
  rewrite Hft, Hvt.
  cbn -[run_joint_reactions_analysis fs_lookup PyStr.splitlines TextIO.utf8_valid
        TextIO.translate_newlines subject_file_text].
  rewrite Hfn, Hvn.
  cbn -[run_joint_reactions_analysis fs_lookup PyStr.splitlines TextIO.utf8_valid
        TextIO.translate_newlines subject_file_text].
  rewrite !splitlines_subject_file by assumption.
  now rewrite <- app_assoc.
Qed.

Lemma main_reads_subject_lists_witness :
  main Demo.X "/home/u"
    ["JRA_Batch.py"; "/tear.txt"; "/notear.txt"; "split.pkl"; "whole.pkl"; "/d"; "/tpl.xml"]
    (mkState (<["/notear.txt" := File (subject_file_text [] "S2")]>
              (<["/tear.txt" := File (subject_file_text [("S1", true); ("", false)] "")]>
               Demo.fs0)) []) =
  outcome_of (run_joint_reactions_analysis Demo.X "/home/u"
                (subject_file_ids [("S1", true); ("", false)] "")
                (subject_file_ids [] "S2") "split.pkl" "whole.pkl" "/d" "/tpl.xml"
                (mkState (<["/notear.txt" := File (subject_file_text [] "S2")]>
                          (<["/tear.txt" := File (subject_file_text [("S1", true); ("", false)] "")]>
                           Demo.fs0)) ([] ++ [EvRead "/tear.txt"; EvRead "/notear.txt"]))).
Proof.
  refine (main_reads_subject_lists Demo.X "/home/u" "JRA_Batch.py" "/tear.txt" "/notear.txt"
            "split.pkl" "whole.pkl" "/d" "/tpl.xml" _
            [("S1", true); ("", false)] "" [] "S2" _ _ _ _ _ _ _ _);
    first [ repeat constructor | vm_compute; reflexivity ].
Defined.

(* ================================================================== *)
(** * str.replace on the paths of get_subject_info *)

Lemma str_length_app a b : String.length (a +:+ b) = String.length a + String.length b.
Proof.
  induction a as [|c a IH]; [reflexivity|].
  change (S (String.length (a +:+ b)) = S (String.length a + String.length b)). lia.
Qed.

Lemma prefix_refl s : String.prefix s s = true.
Proof.
  induction s as [|c s IH]; [reflexivity|].
  cbn [String.prefix]. destruct (ascii_dec c c); [exact IH|congruence].
Qed.

Lemma prefix_length p s : String.prefix p s = true -> String.length p <= String.length s.
Proof.
  revert s. induction p as [|c p IH]; intros s H; cbn; [lia|].
  destruct s as [|d s]; cbn in H; [discriminate|].
  destruct (ascii_dec c d); [|discriminate]. apply IH in H. cbn. lia.
Qed.

Lemma replace_go_skip_all old new k s :
  String.length s <= k -> PyStr.replace_go old new k s = EmptyString.
Proof.
  revert k. induction s as [|c s IH]; intros k Hk; [reflexivity|].
  cbn in Hk. destruct k as [|k]; [lia|]. cbn [PyStr.replace_go]. apply IH. lia.
Qed.

Lemma replace_self old new :
  old <> EmptyString -> PyStr.replace old old new = new.
Proof.
  intros Hne. destruct old as [|c o]; [congruence|].
  unfold PyStr.replace. cbn [PyStr.replace_go]. rewrite prefix_refl.
  rewrite replace_go_skip_all by (cbn; lia).
  induction new as [|d new IH]; [reflexivity|].
  change (String d (new +:+ "") = String d new). now rewrite IH.
Qed.

Lemma replace_absent old new s :
  PyStr.contains old s = false -> PyStr.replace s old new = s.
Proof.
  unfold PyStr.replace. induction s as [|c s IH]; intros H; [reflexivity|].
  cbn [PyStr.contains] in H. apply orb_false_iff in H as [H1 H2].
  cbn [PyStr.replace_go]. rewrite H1, (IH H2). reflexivity.
Qed.

Lemma contains_shorter sub s :
  sub <> EmptyString -> String.length s < String.length sub ->
  PyStr.contains sub s = false.
Proof.
  intros Hne. induction s as [|c s IH]; intros Hl.
  - destruct sub; [congruence|reflexivity].
  - cbn [PyStr.contains]. rewrite IH by (cbn in Hl; lia).
    destruct (String.prefix sub (String c s)) eqn:E; [|reflexivity].
    apply prefix_length in E. lia.
Qed.

Lemma contains_slash_append a b :
  PyStr.contains "/" (a +:+ b) = PyStr.contains "/" a || PyStr.contains "/" b.
Proof.
  induction a as [|c a IH]; [reflexivity|].
  change (String c a +:+ b) with (String c (a +:+ b)).
  rewrite !contains_slash_cons, IH. apply orb_assoc.
Qed.

Lemma prefix_app_slash old x y :
  PyStr.contains "/" old = false ->
  String.prefix old (x +:+ "/" +:+ y) = String.prefix old x.
Proof.
  revert x. induction old as [|o os IH]; intros x Hold.
  - destruct x; reflexivity.
  - rewrite contains_slash_cons in Hold. apply orb_false_iff in Hold as [Ho Hos].
    destruct x as [|d x].
    + cbn [String.prefix]. change ("" +:+ "/" +:+ y) with (String "/" y).
      cbn [String.prefix]. destruct (ascii_dec o "/") as [->|]; [discriminate|reflexivity].
    + change (String d x +:+ "/" +:+ y) with (String d (x +:+ "/" +:+ y)).
      cbn [String.prefix]. destruct (ascii_dec o d); [now apply IH|reflexivity].
Qed.

(** A needle without ['/'] is replaced in each ['/']-separated part on its
    own. *)
Lemma replace_go_app_slash old new :
  old <> EmptyString -> PyStr.contains "/" old = false ->
  forall a k b, k <= String.length a ->
  PyStr.replace_go old new k (a +:+ "/" +:+ b) =
  PyStr.replace_go old new k a +:+ "/" +:+ PyStr.replace_go old new 0 b.
Proof.
  intros Hne Hsl a. induction a as [|c a IH]; intros k b Hk.
  - cbn in Hk. assert (k = 0) as -> by lia.
    change ("" +:+ "/" +:+ b) with (String "/" b). cbn [PyStr.replace_go].
    change (String "/" b) with ("" +:+ "/" +:+ b). rewrite prefix_app_slash by exact Hsl.
    destruct old; [congruence|reflexivity].
  - change (String c a +:+ "/" +:+ b) with (String c (a +:+ "/" +:+ b)).
    cbn in Hk. destruct k as [|k].
    + cbn [PyStr.replace_go].
      change (String c (a +:+ "/" +:+ b)) with (String c a +:+ "/" +:+ b).
      rewrite prefix_app_slash by exact Hsl.
      destruct (String.prefix old (String c a)) eqn:E.
      * apply prefix_length in E. cbn in E.
        rewrite IH by lia. now rewrite str_app_assoc.
      * rewrite IH by lia. reflexivity.
    + cbn [PyStr.replace_go]. apply IH. lia.
Qed.

(** The model path with its file name replaced. *)
Lemma replace_model_file root subject_id suffix new :
  suffix <> EmptyString ->
  PyStr.contains "/" subject_id = false -> PyStr.contains "/" suffix = false ->
  PyStr.contains (subject_id +:+ suffix) root = false ->
  PyStr.replace (root +:+ "/" +:+ subject_id +:+ "/" +:+ subject_id +:+ suffix)
    (subject_id +:+ suffix) new =
  root +:+ "/" +:+ subject_id +:+ "/" +:+ new.
Proof.
  intros Hsuf Hid Hsl Hroot.
  assert (Hne : subject_id +:+ suffix <> EmptyString).
  { intros E. apply (f_equal String.length) in E. rewrite str_length_app in E.
    destruct suffix; [congruence|cbn in E; lia]. }
  assert (Hold : PyStr.contains "/" (subject_id +:+ suffix) = false).
  { now rewrite contains_slash_append, Hid, Hsl. }
  unfold PyStr.replace.
  rewrite (replace_go_app_slash _ new Hne Hold root 0) by lia.
  rewrite (replace_go_app_slash _ new Hne Hold subject_id 0) by lia.
  change (PyStr.replace_go (subject_id +:+ suffix) new 0 root)
    with (PyStr.replace root (subject_id +:+ suffix) new).
  change (PyStr.replace_go (subject_id +:+ suffix) new 0 subject_id)
    with (PyStr.replace subject_id (subject_id +:+ suffix) new).
  change (PyStr.replace_go (subject_id +:+ suffix) new 0 (subject_id +:+ suffix))
    with (PyStr.replace (subject_id +:+ suffix) (subject_id +:+ suffix) new).
  rewrite replace_self by exact Hne.
  rewrite (replace_absent _ _ root Hroot).
  rewrite replace_absent; [reflexivity|].
  apply contains_shorter; [exact Hne|].
  rewrite str_length_app. destruct suffix; [congruence|cbn; lia].
Qed.

(** Lines 101-118.  When the subject identifier has no ['/'] and the root
    does not contain the model file name, a tear subject is classified
    with the model [root/id/id_nosupra.osim] and the directories
    [root/id/SO_Results] and [root/id/JRA_Results] (all made absolute
    against the working directory), cohort True; a subject only in the
    no-tear list likewise with [root/id/id_clamped.osim], cohort False. *)
Theorem get_subject_info_paths cwd root subject_id tear_subjects no_tear_subjects :
  PyStr.contains "/" subject_id = false ->
  (In subject_id tear_subjects ->
   PyStr.contains (subject_id +:+ "_nosupra.osim") root = false ->
   get_subject_info cwd root subject_id tear_subjects no_tear_subjects =
   inr (PosixPath.abspath cwd (root +:+ "/" +:+ subject_id +:+ "/" +:+ subject_id +:+ "_nosupra.osim"),
        PosixPath.abspath cwd (root +:+ "/" +:+ subject_id +:+ "/" +:+ "SO_Results"),
        PosixPath.abspath cwd (root +:+ "/" +:+ subject_id +:+ "/" +:+ "JRA_Results"),
        true)) /\
  (~ In subject_id tear_subjects -> In subject_id no_tear_subjects ->
   PyStr.contains (subject_id +:+ "_clamped.osim") root = false ->
   get_subject_info cwd root subject_id tear_subjects no_tear_subjects =
   inr (PosixPath.abspath cwd (root +:+ "/" +:+ subject_id +:+ "/" +:+ subject_id +:+ "_clamped.osim"),
        PosixPath.abspath cwd (root +:+ "/" +:+ subject_id +:+ "/" +:+ "SO_Results"),
        PosixPath.abspath cwd (root +:+ "/" +:+ subject_id +:+ "/" +:+ "JRA_Results"),
        false)).
Proof.
  intros Hid. split.
  - intros Ht Hroot. unfold get_subject_info.
    rewrite (proj2 (py_in_spec _ _) Ht). cbv beta iota zeta.
    rewrite !replace_model_file by (try discriminate; first [exact Hid|exact Hroot|reflexivity]).
    reflexivity.
  - intros Ht Hn Hroot. unfold get_subject_info.
    rewrite (py_in_false _ _ Ht), (proj2 (py_in_spec _ _) Hn). cbv beta iota zeta.
    rewrite !replace_model_file by (try discriminate; first [exact Hid|exact Hroot|reflexivity]).
    reflexivity.
Qed.

Lemma get_subject_info_paths_witness :
  get_subject_info "/home/u" "data" "S2" ["S1"] ["S2"] =
  inr (PosixPath.abspath "/home/u" ("data" +:+ "/" +:+ "S2" +:+ "/" +:+ "S2" +:+ "_clamped.osim"),
       PosixPath.abspath "/home/u" ("data" +:+ "/" +:+ "S2" +:+ "/" +:+ "SO_Results"),
       PosixPath.abspath "/home/u" ("data" +:+ "/" +:+ "S2" +:+ "/" +:+ "JRA_Results"),
       false).
Proof.
  apply (proj2 (get_subject_info_paths "/home/u" "data" "S2" ["S1"] ["S2"] eq_refl)).
  - cbn. intuition discriminate.
  - now left.
  - reflexivity.
Defined.

Lemma abspath_cwd cwd1 cwd2 p :
  PyStr.startswith p "/" = true -> PosixPath.abspath cwd1 p = PosixPath.abspath cwd2 p.
Proof. intros H. unfold PosixPath.abspath, PosixPath.isabs. now rewrite H. Qed.

Lemma startswith_slash_cons r : PyStr.startswith (String "/" r) "/" = true.
Proof. unfold PyStr.startswith. now rewrite prefix_slash. Qed.

Lemma replace_keeps_lead_slash r subject_id suffix new :
  PyStr.startswith subject_id "/" = false ->
  PyStr.startswith (PyStr.replace (String "/" r) (subject_id +:+ String "_" suffix) new) "/" = true.
Proof.
  intros Hid. unfold PyStr.replace. cbn [PyStr.replace_go].
  replace (String.prefix (subject_id +:+ String "_" suffix) (String "/" r)) with false.
  - apply startswith_slash_cons.
  - destruct subject_id as [|c i].
    { cbn [String.prefix String.append]. now destruct (ascii_dec "_" "/"). }
    unfold PyStr.startswith in Hid. rewrite prefix_slash in Hid.
    change (String c i +:+ String "_" suffix) with (String c (i +:+ String "_" suffix)).
    cbn [String.prefix]. destruct (ascii_dec c "/") as [->|]; [discriminate|reflexivity].
Qed.

(** Lines 114-116.  With an absolute root and a subject identifier that
    does not start with ['/'], classification does not depend on the
    working directory: the three paths are only normalised. *)
Theorem get_subject_info_absolute_root cwd1 cwd2 root subject_id tear_subjects
    no_tear_subjects :
  PyStr.startswith root "/" = true -> PyStr.startswith subject_id "/" = false ->
  get_subject_info cwd1 root subject_id tear_subjects no_tear_subjects =
  get_subject_info cwd2 root subject_id tear_subjects no_tear_subjects.
Proof.
  intros Hr Hid.
  destruct root as [|c r]; [discriminate|].
  unfold PyStr.startswith in Hr. rewrite prefix_slash in Hr.
  apply Ascii.eqb_eq in Hr. subst c.
  unfold get_subject_info.
  destruct (py_in subject_id tear_subjects); [|destruct (py_in subject_id no_tear_subjects)];
    cbv beta iota zeta.
  3: reflexivity.
  all: repeat (erewrite (abspath_cwd cwd1 cwd2)
                by first [apply startswith_slash_cons
                         | apply replace_keeps_lead_slash; exact Hid]);
    reflexivity.
Qed.

Lemma get_subject_info_absolute_root_witness :
  get_subject_info "/home/u" "/d" "S1" ["S1"] [] = get_subject_info "/tmp" "/d" "S1" ["S1"] [].
Proof. apply get_subject_info_absolute_root; reflexivity. Defined.

(** Lines 147-152.  Every subject the batch iterates over is in one of the
    two lists, so its classification never fails, and its cohort is True
    exactly when it is in the tear list. *)
Theorem get_subject_info_batch_subject cwd root_dir tear_subjects no_tear_subjects
    subject_id :
  In subject_id (tear_subjects ++ no_tear_subjects) ->
  exists model_file so_dir results_dir cohort,
    get_subject_info cwd root_dir subject_id tear_subjects no_tear_subjects =
    inr (model_file, so_dir, results_dir, cohort) /\
    (cohort = true <-> In subject_id tear_subjects).
Proof.
  intros Hin. unfold get_subject_info.
  destruct (py_in subject_id tear_subjects) eqn:Ht.
  - do 4 eexists. split; [reflexivity|]. split; [intros _|reflexivity].
    now apply py_in_spec.
  - destruct (py_in subject_id no_tear_subjects) eqn:Hn.
    + do 4 eexists. split; [reflexivity|]. split; [discriminate|].
      intros H. apply py_in_spec in H. congruence.
    + exfalso. apply in_app_or in Hin as [H|H]; apply py_in_spec in H; congruence.
Qed.

Lemma get_subject_info_batch_subject_witness :
  exists model_file so_dir results_dir cohort,
    get_subject_info "/home/u" "/d" "S2" ["S1"] ["S2"] =
    inr (model_file, so_dir, results_dir, cohort) /\
    (cohort = true <-> In "S2" ["S1"]).
Proof.
  apply get_subject_info_batch_subject. right. now left.
Defined.

(* ================================================================== *)
(** * One trial: process_name *)

(** Lines 160-176.  A listing entry whose name contains ["_states.sto"] and
    whose processing returns makes exactly these calls, in this order:
    [Storage] on [so_dir/name]; reading the template; [combine_files] on
    the states file; [save_combined_activations] on the derived activation
    file with the subject's cohort; writing the setup file
    [results_dir/<trial>_JRA_Setup.xml] (joined by [os.path.join], the trial
    being [name] cut at its first ["_SO"]); and the engine on the model and
    that same setup file. *)
Theorem process_name_calls {time} (X : externals time) setup_template model_file
    so_dir results_dir split_emg not_split_emg cohort name s s' :
  PyStr.contains "_states.sto" name = true ->
  process_name X setup_template model_file so_dir results_dir split_emg
    not_split_emg cohort name s = (inr tt, s') ->
  let states_file := so_dir +:+ "/" +:+ name in
  let setup_file := PosixPath.join results_dir
        ((truncate_at "_SO" (strip_path name) +:+ "_JRA") +:+ "_Setup.xml") in
  st_io s' = st_io s ++
    [EvStorage states_file; EvRead setup_template; EvCombineFiles states_file;
     EvSaveCombinedActivations (activation_file_of states_file) split_emg
       not_split_emg (Some cohort);
     EvWrite setup_file; EvEngine model_file setup_file].
Proof.
  intros Hn H. cbv zeta.
  unfold process_name in H. rewrite Hn in H.
  rewrite trial_of_spec in H.
  destruct s as [fs io].
  unfold prep_joint_reactions_analysis, osim_Storage, run_engine, call_external,
    emit, get_fs, put_fs, lift, ret, raise in H.
  unfold bind at 1 in H. unfold bind at 1 in H. cbn -[create_jra_setup] in H.
  destruct (x_storage X fs (so_dir +:+ "/" +:+ name)) as [e|rows]; cbn -[create_jra_setup] in H;
    [discriminate|].
  match type of H with
  | context [create_jra_setup ?X ?a ?b ?c ?d ?e ?f ?g ?h ?i ?j ?st] =>
      destruct (create_jra_setup X a b c d e f g h i j st) as [[e'|p] s1] eqn:Hc
  end; cbn in H; [discriminate|].
  apply create_jra_setup_inv in Hc as [-> (_ & _ & _ & _ & _ & _ & _ & _ & _ & _ & _ & Hio)].
  destruct (x_engine X _ _ _) as [[e'|[]] fs'] in H; cbn in H; [discriminate|].
  injection H as <-. cbn [st_io]. cbn [st_io] in Hio. rewrite Hio.
  now rewrite <- !app_assoc.
Qed.

Lemma process_name_calls_witness :
  st_io (snd (process_name Demo.X "/tpl.xml" "/d/S1/S1_nosupra.osim" "/d/S1/SO_Results"
                "/out" "split.pkl" "whole.pkl" true "A_SO_StatesReporter_states.sto"
                Demo.st_out)) =
  st_io Demo.st_out ++
    [EvStorage ("/d/S1/SO_Results" +:+ "/" +:+ "A_SO_StatesReporter_states.sto");
     EvRead "/tpl.xml";
     EvCombineFiles ("/d/S1/SO_Results" +:+ "/" +:+ "A_SO_StatesReporter_states.sto");
     EvSaveCombinedActivations
       (activation_file_of ("/d/S1/SO_Results" +:+ "/" +:+ "A_SO_StatesReporter_states.sto"))
       "split.pkl" "whole.pkl" (Some true);
     EvWrite (PosixPath.join "/out"
       ((truncate_at "_SO" (strip_path "A_SO_StatesReporter_states.sto") +:+ "_JRA")
          +:+ "_Setup.xml"));
     EvEngine "/d/S1/S1_nosupra.osim" (PosixPath.join "/out"
       ((truncate_at "_SO" (strip_path "A_SO_StatesReporter_states.sto") +:+ "_JRA")
          +:+ "_Setup.xml"))].
Proof.
  exact (process_name_calls Demo.X "/tpl.xml" "/d/S1/S1_nosupra.osim" "/d/S1/SO_Results"
           "/out" "split.pkl" "whole.pkl" true "A_SO_StatesReporter_states.sto"
           Demo.st_out _ eq_refl (surjective_pairing _)).
Defined.

(** Line 160.  Entries of an SO-results listing whose names do not contain
    ["_states.sto"] have no effect at all: the loop over a listing behaves
    as the loop over its states files alone. *)
Theorem process_names_skip_others {time} (X : externals time) setup_template
    model_file so_dir results_dir split_emg not_split_emg cohort names s :
  py_for names (process_name X setup_template model_file so_dir results_dir
                  split_emg not_split_emg cohort) s =
  py_for (List.filter (PyStr.contains "_states.sto") names)
    (process_name X setup_template model_file so_dir results_dir
       split_emg not_split_emg cohort) s.
Proof.
  revert s. induction names as [|n names IH]; intros s; [reflexivity|].
  cbn [py_for List.filter]. destruct (PyStr.contains "_states.sto" n) eqn:Hn.
  - cbn [py_for]. unfold bind.
    destruct (process_name X setup_template model_file so_dir results_dir split_emg
                not_split_emg cohort n s) as [[e|[]] s']; [reflexivity|apply IH].
  - unfold bind at 1. unfold process_name at 1. rewrite Hn. apply IH.
Qed.

(* ================================================================== *)
(** * Results directory creation *)

Lemma fs_grows_refl fs : fs_grows_by_dirs fs fs.
Proof. split; auto. Qed.

Lemma fs_grows_trans fs1 fs2 fs3 :
  fs_grows_by_dirs fs1 fs2 -> fs_grows_by_dirs fs2 fs3 -> fs_grows_by_dirs fs1 fs3.
Proof.
  intros [A1 B1] [A2 B2]. split; [auto|].
  intros p n H. destruct (B2 p n H) as [H'|]; [|auto]. apply B1, H'.
Qed.

Lemma fs_grows_insert_dir fs p :
  fs_exists fs p = false -> fs_grows_by_dirs fs (<[p := Dir]> fs).
Proof.
  unfold fs_grows_by_dirs, fs_exists, fs_lookup. intros Hp.
  destruct (String.eqb p "/") eqn:Hroot; [discriminate|].
  destruct (fs !! p) eqn:Hfp; [discriminate|].
  split.
  - intros q n Hq. destruct (String.eqb q "/"); [exact Hq|].
    rewrite lookup_insert_ne; [exact Hq|congruence].
  - intros q n Hq. destruct (String.eqb q "/"); [now left|].
    destruct (decide (p = q)) as [<-|Hne].
    + rewrite lookup_insert_eq in Hq. injection Hq as <-. now right.
    + rewrite lookup_insert_ne in Hq by exact Hne. now left.
Qed.

Lemma only_adds_dirs_ret {A} (a : A) : only_adds_dirs (ret a).
Proof. intros s r s' H. injection H as <- <-. split; [apply fs_grows_refl|reflexivity]. Qed.

Lemma only_adds_dirs_raise {A} e : only_adds_dirs (@raise A e).
Proof. intros s r s' H. injection H as <- <-. split; [apply fs_grows_refl|reflexivity]. Qed.

Lemma only_adds_dirs_bind {A B} (m : M A) (k : A -> M B) :
  only_adds_dirs m -> (forall a, only_adds_dirs (k a)) -> only_adds_dirs (bind m k).
Proof.
  intros Hm Hk s r s' H. unfold bind in H.
  destruct (m s) as [[e|a] s1] eqn:E.
  - injection H as <- <-. exact (Hm _ _ _ E).
  - destruct (Hm _ _ _ E) as [G1 I1]. destruct (Hk a _ _ _ H) as [G2 I2].
    split; [eapply fs_grows_trans; eauto|congruence].
Qed.

Lemma only_adds_dirs_get_fs : only_adds_dirs get_fs.
Proof. intros s r s' H. injection H as <- <-. split; [apply fs_grows_refl|reflexivity]. Qed.

Lemma only_adds_dirs_mkdir p : only_adds_dirs (mkdir p).
Proof.
  intros [fs io] r s' H. unfold mkdir, bind, get_fs, put_fs, raise in H.
  cbn -[fs_exists PosixPath.path_split fs_lookup] in H.
  destruct (fs_exists fs p) eqn:Hex.
  { injection H as <- <-. split; [apply fs_grows_refl|reflexivity]. }
  destruct (String.eqb (fst (PosixPath.path_split p)) EmptyString).
  { injection H as <- <-. split; [now apply fs_grows_insert_dir|reflexivity]. }
  destruct (fs_lookup fs (fst (PosixPath.path_split p))) as [[|c]|];
    injection H as <- <-; (split; [|reflexivity]);
    first [now apply fs_grows_insert_dir | apply fs_grows_refl].
Qed.

Lemma only_adds_dirs_except_file_exists m :
  only_adds_dirs m -> only_adds_dirs (except_file_exists m).
Proof.
  intros Hm s r s' H. unfold except_file_exists in H.
  destruct (m s) as [r0 s0] eqn:E.
  destruct r0 as [[]|]; injection H as <- <-; exact (Hm _ _ _ E).
Qed.

Lemma only_adds_dirs_makedirs_go fuel name : only_adds_dirs (makedirs_go fuel name).
Proof.
  revert name. induction fuel as [|k IH]; intros name; [apply only_adds_dirs_raise|].
  cbn [makedirs_go].
  destruct (PosixPath.path_split name) as [h t].
  destruct (if String.eqb t EmptyString then PosixPath.path_split h else (h, t)) as [h' t'].
  apply only_adds_dirs_bind; [|intros _; apply only_adds_dirs_mkdir].
  destruct (negb (String.eqb h' EmptyString) && negb (String.eqb t' EmptyString));
    [|apply only_adds_dirs_ret].
  apply only_adds_dirs_bind; [apply only_adds_dirs_get_fs|].
  intros fs. destruct (fs_exists fs h'); [apply only_adds_dirs_ret|].
  apply only_adds_dirs_except_file_exists, IH.
Qed.

(** Lines 154-156.  Whether it returns or raises, the results-directory
    step never changes or removes an existing entry of the file system,
    and every entry it adds is a directory. *)
Theorem ensure_results_dir_only_adds_dirs results_dir s r s' :
  ensure_results_dir results_dir s = (r, s') ->
  fs_grows_by_dirs (st_fs s) (st_fs s').
Proof.
  intros H. destruct s as [fs io].
  unfold ensure_results_dir, path_exists, makedirs, emit, get_fs, bind, ret in H.
  cbn -[makedirs_go fs_exists] in H.
  destruct (fs_exists fs results_dir); cbn -[makedirs_go] in H.
  - injection H as <- <-. apply fs_grows_refl.
  - destruct (makedirs_go (S (String.length results_dir)) results_dir
                (mkState fs ((io ++ [EvExists results_dir]) ++ [EvMakedirs results_dir])))
      as [r0 s0] eqn:E.
    injection H as <- <-. exact (proj1 (only_adds_dirs_makedirs_go _ _ _ _ _ E)).
Qed.

Lemma ensure_results_dir_only_adds_dirs_witness :
  fs_grows_by_dirs Demo.fs0
    (st_fs (snd (ensure_results_dir "/d/S1/JRA_Results/x/y" Demo.st0))).
Proof.
  exact (ensure_results_dir_only_adds_dirs "/d/S1/JRA_Results/x/y" Demo.st0
           (fst (ensure_results_dir "/d/S1/JRA_Results/x/y" Demo.st0)) _
           (surjective_pairing _)).
Defined.

Lemma mkdir_ok_lookup p s s' :
  mkdir p s = (inr tt, s') -> fs_lookup (st_fs s') p = Some Dir.
Proof.
  destruct s as [fs io]. intros H. unfold mkdir, bind, get_fs, put_fs, raise in H.
  cbn -[fs_exists PosixPath.path_split fs_lookup] in H.
  assert (Hins : fs_lookup (<[p := Dir]> fs) p = Some Dir).
  { unfold fs_lookup. destruct (String.eqb p "/"); [reflexivity|apply lookup_insert_eq]. }
  destruct (fs_exists fs p); [discriminate|].
  destruct (String.eqb (fst (PosixPath.path_split p)) EmptyString).
  { injection H as <-. exact Hins. }
  destruct (fs_lookup fs (fst (PosixPath.path_split p))) as [[|c]|];
    try discriminate; injection H as <-; exact Hins.
Qed.

Lemma makedirs_go_ok_lookup fuel name s s' :
  makedirs_go fuel name s = (inr tt, s') -> fs_lookup (st_fs s') name = Some Dir.
Proof.
  destruct fuel as [|k]; [discriminate|]. cbn [makedirs_go].
  destruct (PosixPath.path_split name) as [h t].
  destruct (if String.eqb t EmptyString then PosixPath.path_split h else (h, t)) as [h' t'].
  unfold bind at 1. intros H.
  destruct (_ s) as [[e|[]] s1]; [discriminate|].
  exact (mkdir_ok_lookup _ _ _ H).
Qed.

(** Lines 154-156.  When the results-directory step returns, the results
    directory exists afterwards; if it did not exist before, it is now a
    directory. *)
Theorem ensure_results_dir_exists_after results_dir s s' :
  ensure_results_dir results_dir s = (inr tt, s') ->
  fs_exists (st_fs s') results_dir = true /\
  (fs_exists (st_fs s) results_dir = false ->
   fs_lookup (st_fs s') results_dir = Some Dir).
Proof.
  intros H. destruct s as [fs io].
  unfold ensure_results_dir, path_exists, makedirs, emit, get_fs, bind, ret in H.
  cbn -[makedirs_go fs_exists] in H.
  destruct (fs_exists fs results_dir) eqn:He; cbn -[makedirs_go fs_exists] in H.
  - injection H as <-. cbn [st_fs]. split; [exact He|congruence].
  - apply makedirs_go_ok_lookup in H. unfold fs_exists. rewrite H. now split.
Qed.

Lemma ensure_results_dir_exists_after_witness :
  fs_exists (st_fs (snd (ensure_results_dir "/out/a/b" Demo.st_out))) "/out/a/b" = true /\
  (fs_exists (st_fs Demo.st_out) "/out/a/b" = false ->
   fs_lookup (st_fs (snd (ensure_results_dir "/out/a/b" Demo.st_out))) "/out/a/b" = Some Dir).
Proof.
  apply ensure_results_dir_exists_after. vm_compute. reflexivity.
Defined.

(* ================================================================== *)
(** * Template handling in create_jra_setup *)

(** Lines 83-89.  A template that contains none of the seven placeholder
    tokens is copied verbatim, whatever the values. *)
Theorem fill_template_no_placeholder content model_file combined_states
    combined_activations initial_time final_time results_dir trial_name :
  has_placeholder content = false ->
  fill_template content model_file combined_states combined_activations
    initial_time final_time results_dir trial_name = content.
Proof.
  unfold has_placeholder, placeholders. cbn [existsb].
  intros H. repeat (apply orb_false_iff in H as [? H]).
  unfold fill_template.
  repeat (rewrite (replace_absent _ _ content) by assumption). reflexivity.
Qed.

Lemma fill_template_no_placeholder_witness :
  fill_template "<m>model</m>" "/m.osim" "c" "a" "0.1" "1.0" "/out" "A" = "<m>model</m>".
Proof. apply fill_template_no_placeholder. reflexivity. Defined.
